(** * ACGalaxy plugin: data model, API client, time grouping and cache

    A shallow embedding of [models.py], [api_client.py] and the cache of
    [main.py], followed by the properties of the plugin's specification.

    Conventions.
    - Python values decoded from JSON are the type [pyval]; the dataclasses
      keep their fields as [pyval] because [from_dict] stores whatever
      [dict.get] returns, without checking it against the annotation.
    - Python exceptions are the type [exn]; a computation that may raise
      returns a [result].
    - [time.time()] returns a float; a finite float is a rational number and
      Python compares an [int] with a [float] exactly, so a clock reading is
      a [Q].
    - The network is an oracle [send] over an abstract [World]; the client
      threads the world through its calls.
    - Logging has no part in what the functions return and is left out. *)

From stdpp Require Import base strings gmap list pretty.
From Stdlib Require Import ZArith QArith Ascii Permutation.
Close Scope Q_scope.
Open Scope Z_scope.

(** ** Python values and builtins *)

Module Py.

(** JSON documents as [json.loads] decodes them.  The API's numbers are
    integers; a decoded object keeps its keys in document order and its
    keys are pairwise distinct, so a lookup takes the first binding. *)
#[warnings="-register-all"]
Inductive pyval : Type :=
| VNone
| VBool (b : bool)
| VInt (z : Z)
| VStr (s : string)
| VList (l : list pyval)
| VDict (d : list (string * pyval)).

Inductive exn : Type :=
| AttributeError (msg : string)
| TypeError (msg : string)
| ValueError (msg : string)
| IndexError (msg : string).

(** [str(e)] *)
Definition exn_str (e : exn) : string :=
  match e with
  | AttributeError msg => msg
  | TypeError msg => msg
  | ValueError msg => msg
  | IndexError msg => msg
  end.

Inductive result (A : Type) : Type :=
| Ok (a : A)
| Raise (e : exn).
Arguments Ok {A} a.
Arguments Raise {A} e.

Definition rbind {A B} (m : result A) (k : A -> result B) : result B :=
  match m with
  | Ok a => k a
  | Raise e => Raise e
  end.

(** [type(v).__name__] *)
Definition type_name (v : pyval) : string :=
  match v with
  | VNone => "NoneType"
  | VBool _ => "bool"
  | VInt _ => "int"
  | VStr _ => "str"
  | VList _ => "list"
  | VDict _ => "dict"
  end.

(** [bool(v)] *)
Definition truthy (v : pyval) : bool :=
  match v with
  | VNone => false
  | VBool b => b
  | VInt z => negb (z =? 0)
  | VStr s => negb (String.eqb s "")
  | VList l => match l with [] => false | _ => true end
  | VDict d => match d with [] => false | _ => true end
  end.

(** [bool] is a subclass of [int]: both take part in arithmetic and in
    comparisons with numbers. *)
Definition as_number (v : pyval) : option Z :=
  match v with
  | VInt z => Some z
  | VBool b => Some (if b then 1 else 0)
  | _ => None
  end.

Fixpoint assoc (key : string) (d : list (string * pyval)) : option pyval :=
  match d with
  | [] => None
  | (k, v) :: d' => if String.eqb k key then Some v else assoc key d'
  end.

Definition no_attribute (v : pyval) (attr : string) : exn :=
  AttributeError ("'" +:+ type_name v +:+ "' object has no attribute '" +:+ attr +:+ "'").

(** [v.get(key, default)]: only a dict has the method. *)
Definition get (v : pyval) (key : string) (default : pyval) : result pyval :=
  match v with
  | VDict d => Ok (match assoc key d with Some x => x | None => default end)
  | _ => Raise (no_attribute v "get")
  end.

(** The items a [for] loop sees.  A string yields its characters (taken
    here byte by byte) and a dict yields its keys. *)
Definition iter (v : pyval) : result (list pyval) :=
  match v with
  | VList l => Ok l
  | VStr s => Ok (map (fun c => VStr (String c EmptyString)) (String.list_ascii_of_string s))
  | VDict d => Ok (map (fun kv => VStr (fst kv)) d)
  | _ => Raise (TypeError ("'" +:+ type_name v +:+ "' object is not iterable"))
  end.

(** [repr] of a list or a dict quotes and escapes the strings inside it
    after the Unicode character database; it is taken as given. *)
Class Builtins := { repr_container : pyval -> string }.

(** [str(v)], also what an f-string substitutes for [{v}]. *)
Definition str `{Builtins} (v : pyval) : string :=
  match v with
  | VNone => "None"
  | VBool b => if b then "True" else "False"
  | VInt z => pretty z
  | VStr s => s
  | _ => repr_container v
  end.

(** [s.split(sep)] for a one-character separator: the pieces between the
    occurrences of [sep], in order; there is always at least one piece. *)
Fixpoint split (s : string) (sep : Ascii.ascii) : list string :=
  match s with
  | EmptyString => [EmptyString]
  | String c s' =>
      if Ascii.eqb c sep then EmptyString :: split s' sep
      else
        match split s' sep with
        | part :: parts => String c part :: parts
        | [] => [String c EmptyString]
        end
  end.

(** [sep in s] for a one-character [sep]. *)
Fixpoint contains (sep : Ascii.ascii) (s : string) : bool :=
  match s with
  | EmptyString => false
  | String c s' => Ascii.eqb c sep || contains sep s'
  end.

(** [l[0]] *)
Definition first {A} (l : list A) : result A :=
  match l with
  | a :: _ => Ok a
  | [] => Raise (IndexError "list index out of range")
  end.

(** [v == s] for a string literal [s]. *)
Definition eq_str (v : pyval) (s : string) : bool :=
  match v with
  | VStr s' => String.eqb s' s
  | _ => false
  end.

(** [d[key] = value]: an existing key keeps its place. *)
Fixpoint setitem (key : string) (value : pyval) (d : list (string * pyval))
  : list (string * pyval) :=
  match d with
  | [] => [(key, value)]
  | (k, v) :: d' =>
      if String.eqb k key then (k, value) :: d' else (k, v) :: setitem key value d'
  end.

(** [s.upper()] on the ASCII letters; the client's method names are ASCII. *)
Definition upper_char (c : Ascii.ascii) : Ascii.ascii :=
  let n := Ascii.nat_of_ascii c in
  if ((97 <=? n) && (n <=? 122))%nat then Ascii.ascii_of_nat (n - 32) else c.

Fixpoint upper (s : string) : string :=
  match s with
  | EmptyString => EmptyString
  | String c s' => String (upper_char c) (upper s')
  end.

(** [s.rstrip(c)] for one character [c]. *)
Fixpoint rstrip (c : Ascii.ascii) (s : string) : string :=
  match s with
  | EmptyString => EmptyString
  | String a s' =>
      match rstrip c s' with
      | EmptyString => if Ascii.eqb a c then EmptyString else String a EmptyString
      | r => String a r
      end
  end.

(** [mapM]: a loop that builds a list and stops at the first exception. *)
Fixpoint traverse {A B} (f : A -> result B) (l : list A) : result (list B) :=
  match l with
  | [] => Ok []
  | a :: l' =>
      match f a with
      | Ok b =>
          match traverse f l' with
          | Ok bs => Ok (b :: bs)
          | Raise e => Raise e
          end
      | Raise e => Raise e
      end
  end.

(** A dict key must be hashable; lists and dicts are not. *)
Definition hashable (v : pyval) : bool :=
  match v with
  | VList _ | VDict _ => false
  | _ => true
  end.

(** Equality of two hashable keys: numbers (bools among them) by value,
    strings by content, [None] with itself. *)
Definition key_eqb (a b : pyval) : bool :=
  match as_number a, as_number b with
  | Some x, Some y => x =? y
  | None, None =>
      match a, b with
      | VNone, VNone => true
      | VStr s, VStr s' => String.eqb s s'
      | _, _ => false
      end
  | _, _ => false
  end.

(** [datetime]: a naive datetime is the number of microseconds since
    0001-01-01T00:00:00.  [strptime data fmt] is the library parser,
    [None] when it raises [ValueError]; it is taken as given. *)
Class Datetime := { strptime : string -> string -> option Z }.

Definition microseconds_per_day : Z := 86400000000.

(** [(target - current).days]: a timedelta keeps 0 <= seconds < 86400, so
    its [days] is the floor of the difference in days. *)
Definition timedelta_days (target current : Z) : Z :=
  (target - current) / microseconds_per_day.

End Py.
Import Py.

Notation "'let*' x ':=' m 'in' k" := (rbind m (fun x => k))
  (at level 10, x name, m at level 100, k at level 200, only parsing).

(** ** models.py *)

(** [class ACGEvent].  [id] goes through [str()]; every other field is
    what the item holds. *)
Module ACGEvent.

Record t : Type := mk {
  id : string;
  project_name : pyval;
  start_time : pyval;
  end_time : pyval;
  start_unix : pyval;
  end_unix : pyval;
  city : pyval;
  venue_name : pyval;
  min_price : pyval;
  max_price : pyval;
  like_count : pyval;
  has_npc : pyval;
  cover : pyval;
  coordinate : pyval;
  description : pyval
}.

Section Methods.
Context `{Builtins}.

Definition from_dict (data : pyval) : result t :=
  let* v_id := get data "id" (VStr "") in
  let* v_project_name := get data "project_name" (VStr "") in
  let* v_start_time := get data "start_time" (VStr "") in
  let* v_end_time := get data "end_time" (VStr "") in
  let* v_start_unix := get data "start_unix" (VInt 0) in
  let* v_end_unix := get data "end_unix" (VInt 0) in
  let* v_city := get data "city" (VStr "") in
  let* v_venue_name := get data "venue_name" (VStr "") in
  let* v_min_price := get data "min_price" (VInt 0) in
  let* v_max_price := get data "max_price" (VInt 0) in
  let* v_like_count := get data "like_count" (VInt 0) in
  let* v_has_npc := get data "has_npc" (VInt 0) in
  let* v_cover := get data "cover" VNone in
  let* v_coordinate := get data "coordinate" VNone in
  let* v_description := get data "description" VNone in
  Ok (mk (str v_id) v_project_name v_start_time v_end_time v_start_unix
         v_end_unix v_city v_venue_name v_min_price v_max_price v_like_count
         v_has_npc v_cover v_coordinate v_description).

End Methods.

(** [price / 100] is a true division: it needs a number. *)
Definition div100 (price : pyval) : result Z :=
  match as_number price with
  | Some n => Ok n
  | None =>
      Raise (TypeError ("unsupported operand type(s) for /: '" +:+
                        type_name price +:+ "' and 'int'"))
  end.

(** [f"{n / 100:.0f}"] for an integer [n] of hundredths.  The quotient is
    the double nearest to n/100 and [.0f] rounds that double to the
    nearest integer, ties to even.  A half k + 1/2 is itself a double and
    the division is monotone, so while |n| stays below 2^53 the digits are
    those of the exact quotient rounded ties-to-even; a negative quotient
    keeps its sign even when it rounds to zero. *)
Definition round_half_even (n : Z) : Z :=
  let q := Z.abs n / 100 in
  let r := Z.abs n mod 100 in
  if r <? 50 then q
  else if 50 <? r then q + 1
  else if Z.even q then q else q + 1.

Definition format_yuan (n : Z) : string :=
  (if n <? 0 then "-" else "") +:+ pretty (round_half_even n).

(** The currency mark of the source text: U+FFE5, FULLWIDTH YEN SIGN. *)
Definition yuan_mark : string := "￥".

Definition price_range_yuan (self : t) : result string :=
  let* min_yuan := div100 (min_price self) in
  let* max_yuan := div100 (max_price self) in
  if min_yuan =? max_yuan then Ok (yuan_mark +:+ format_yuan min_yuan)
  else Ok (yuan_mark +:+ format_yuan min_yuan +:+ " - " +:+ format_yuan max_yuan).

(** [a <= current_time] and [current_time <= b] against a float. *)
Definition le_float (a : pyval) (current_time : Q) : result bool :=
  match as_number a with
  | Some z => Ok (Qle_bool (inject_Z z) current_time)
  | None =>
      Raise (TypeError ("'<=' not supported between instances of '" +:+
                        type_name a +:+ "' and 'float'"))
  end.

Definition float_le (current_time : Q) (b : pyval) : result bool :=
  match as_number b with
  | Some z => Ok (Qle_bool current_time (inject_Z z))
  | None =>
      Raise (TypeError ("'<=' not supported between instances of 'float' and '" +:+
                        type_name b +:+ "'"))
  end.

(** [self.start_unix <= current_time <= self.end_unix], where
    [current_time] is the reading of [time.time()].  The chain stops at
    the first comparison that is false. *)
Definition is_ongoing (self : t) (current_time : Q) : result bool :=
  let* started := le_float (start_unix self) current_time in
  if started then float_le current_time (end_unix self) else Ok false.

(** [current_time < b] and [current_time > b] for a float [current_time]. *)
Definition float_lt (current_time : Q) (b : pyval) : result bool :=
  match as_number b with
  | Some z => Ok (negb (Qle_bool (inject_Z z) current_time))
  | None =>
      Raise (TypeError ("'<' not supported between instances of 'float' and '" +:+
                        type_name b +:+ "'"))
  end.

Definition float_gt (current_time : Q) (b : pyval) : result bool :=
  match as_number b with
  | Some z => Ok (negb (Qle_bool current_time (inject_Z z)))
  | None =>
      Raise (TypeError ("'>' not supported between instances of 'float' and '" +:+
                        type_name b +:+ "'"))
  end.

(** [current_time < self.start_unix] *)
Definition is_upcoming (self : t) (current_time : Q) : result bool :=
  float_lt current_time (start_unix self).

(** [current_time > self.end_unix] *)
Definition is_finished (self : t) (current_time : Q) : result bool :=
  float_gt current_time (end_unix self).

(** [self.has_npc == 1]: a number equal to one; any other value,
    the text "1" among them, compares unequal. *)
Definition has_npc_text (self : t) : string :=
  match as_number (has_npc self) with
  | Some 1 => "有NPC招募信息"
  | _ => "无NPC招募信息"
  end.

Definition bilibili_url (self : t) : string :=
  "https://show.bilibili.com/platform/detail.html?id=" +:+ id self.

Definition amap_url `{Builtins} (self : t) : string :=
  if truthy (coordinate self)
  then "https://uri.amap.com/marker?position=" +:+ str (coordinate self)
  else "".

End ACGEvent.

(** [class Guest] *)
Module Guest.

Record t : Type := mk {
  id : string;
  name : pyval;
  description : pyval;
  avatar : pyval
}.

Definition from_dict `{Builtins} (data : pyval) : result t :=
  let* v_id := get data "id" (VStr "") in
  let* v_name := get data "name" (VStr "") in
  let* v_description := get data "description" (VStr "") in
  let* v_avatar := get data "avatar" VNone in
  Ok (mk (str v_id) v_name v_description v_avatar).

End Guest.

(** [class ACGListResponse] *)
Module ACGListResponse.

Record t : Type := mk {
  count : pyval;
  data : list ACGEvent.t
}.

Definition from_dict `{Builtins} (data : pyval) : result t :=
  let* items := get data "data" (VList []) in
  let* items := iter items in
  let* events := traverse ACGEvent.from_dict items in
  let* v_count := get data "count" (VInt 0) in
  Ok (mk v_count events).

End ACGListResponse.

(** [class GuestListResponse] *)
Module GuestListResponse.

Record t : Type := mk {
  data : list Guest.t
}.

Definition from_dict `{Builtins} (data : pyval) : result t :=
  let* items := get data "data" (VList []) in
  let* items := iter items in
  let* guests := traverse Guest.from_dict items in
  Ok (mk guests).

End GuestListResponse.

(** [class GuestACGListResponse] *)
Module GuestACGListResponse.

Record t : Type := mk {
  guest : Guest.t;
  projects : list ACGEvent.t
}.

Definition from_dict `{Builtins} (data : pyval) : result t :=
  let* inner := get data "data" (VDict []) in
  let* guest_data := get inner "guest" (VDict []) in
  let* v_guest := Guest.from_dict guest_data in
  let* inner := get data "data" (VDict []) in
  let* items := get inner "projects" (VList []) in
  let* items := iter items in
  let* v_projects := traverse ACGEvent.from_dict items in
  Ok (mk v_guest v_projects).

End GuestACGListResponse.

(** [class GuestACGEvent(ACGEvent)]: the event's fields and [guest], which
    stays [None] unless the item carries a truthy ["guest"]. *)
Module GuestACGEvent.

Record t : Type := mk {
  event : ACGEvent.t;
  guest : option Guest.t
}.

Definition from_dict_with_guest `{Builtins} (data : pyval) : result t :=
  let* v_id := get data "id" (VStr "") in
  let* v_project_name := get data "project_name" (VStr "") in
  let* v_start_time := get data "start_time" (VStr "") in
  let* v_end_time := get data "end_time" (VStr "") in
  let* v_start_unix := get data "start_unix" (VInt 0) in
  let* v_end_unix := get data "end_unix" (VInt 0) in
  let* v_city := get data "city" (VStr "") in
  let* v_venue_name := get data "venue_name" (VStr "") in
  let* v_min_price := get data "min_price" (VInt 0) in
  let* v_max_price := get data "max_price" (VInt 0) in
  let* v_like_count := get data "like_count" (VInt 0) in
  let* v_has_npc := get data "has_npc" (VInt 0) in
  let* v_cover := get data "cover" VNone in
  let* v_coordinate := get data "coordinate" VNone in
  let* v_description := get data "description" VNone in
  let event :=
    ACGEvent.mk (str v_id) v_project_name v_start_time v_end_time v_start_unix
      v_end_unix v_city v_venue_name v_min_price v_max_price v_like_count
      v_has_npc v_cover v_coordinate v_description in
  let* guest_data := get data "guest" VNone in
  if truthy guest_data then
    let* v_guest := Guest.from_dict guest_data in
    Ok (mk event (Some v_guest))
  else Ok (mk event None).

End GuestACGEvent.

(** [class TimeGroupedEvents].  [time_groups] is a dict: its keys keep
    the order in which they were first inserted. *)
Module TimeGroupedEvents.

Definition ongoing_key : string := "进行中".

Record t : Type := mk {
  time_groups : list (pyval * list ACGEvent.t)
}.

(** The bucket key of one event, given the clock reading taken for it. *)
Definition time_key (event : ACGEvent.t) (current_time : Q) : result pyval :=
  let* ongoing := ACGEvent.is_ongoing event current_time in
  Ok (if ongoing then VStr ongoing_key else ACGEvent.start_time event).

(** [if time_key not in d: d[time_key] = []] and then
    [d[time_key].append(event)]. *)
Fixpoint append_to (time_key : pyval) (event : ACGEvent.t)
    (d : list (pyval * list ACGEvent.t)) : list (pyval * list ACGEvent.t) :=
  match d with
  | [] => [(time_key, [event])]
  | (k, events) :: d' =>
      if key_eqb k time_key then (k, events ++ [event]) :: d'
      else (k, events) :: append_to time_key event d'
  end.

(** The loop of [from_events]; [is_ongoing] reads the clock once for each
    event, [clock i] being the reading taken for the event at index [i]. *)
Fixpoint from_events_loop (clock : nat -> Q) (i : nat) (events : list ACGEvent.t)
    (d : list (pyval * list ACGEvent.t)) : result (list (pyval * list ACGEvent.t)) :=
  match events with
  | [] => Ok d
  | event :: rest =>
      let* k := time_key event (clock i) in
      if hashable k then from_events_loop clock (S i) rest (append_to k event d)
      else Raise (TypeError ("unhashable type: '" +:+ type_name k +:+ "'"))
  end.

Definition from_events_clock (clock : nat -> Q) (events : list ACGEvent.t) : result t :=
  let* d := from_events_loop clock 0 events [] in
  Ok (mk d).

(** [from_events] while the clock stands at [now]. *)
Definition from_events (now : Q) (events : list ACGEvent.t) : result t :=
  from_events_clock (fun _ => now) events.

Definition get_total_count (self : t) : Z :=
  foldr (fun kv acc => Z.of_nat (length (snd kv)) + acc) 0 (time_groups self).

Section Days.
Context `{Datetime}.

(** The [try] block shared by [get_days_until_start] and
    [calculate_days_until]; [now] is the reading of [datetime.now()]. *)
Definition days_try (time_key : pyval) (now : Z) : result Z :=
  match time_key with
  | VStr s =>
      let* date_part :=
        (if contains " "%char s then first (split s " "%char) else Ok s) in
      match strptime date_part "%Y-%m-%d" with
      | Some target_date => Ok (Z.max 0 (timedelta_days target_date now))
      | None => Raise (ValueError "time data does not match format '%Y-%m-%d'")
      end
  | VList l =>
      if existsb (fun x => eq_str x " ") l then Raise (no_attribute time_key "split")
      else Raise (TypeError "strptime() argument 1 must be str, not list")
  | VDict d =>
      match assoc " " d with
      | Some _ => Raise (no_attribute time_key "split")
      | None => Raise (TypeError "strptime() argument 1 must be str, not dict")
      end
  | _ =>
      Raise (TypeError ("argument of type '" +:+ type_name time_key +:+ "' is not iterable"))
  end.

Definition get_days_until_start (self : t) (time_key : pyval) (now : Z) : Z :=
  if eq_str time_key ongoing_key then 0
  else
    match days_try time_key now with
    | Ok days => days
    | Raise _ => 0
    end.

End Days.

End TimeGroupedEvents.

(** [class APIResponse].  [data] is either a decoded body (or [None]) or
    one of the model objects; [T] is the class of those objects. *)
Module APIResponse.

Inductive payload (T : Type) : Type :=
| Raw (v : pyval)
| Obj (o : T).
Arguments Raw {T} v.
Arguments Obj {T} o.

Record t (T : Type) : Type := mk {
  success : bool;
  message : string;
  data : payload T;
  status_code : Z
}.
Arguments mk {T}.
Arguments success {T}.
Arguments message {T}.
Arguments data {T}.
Arguments status_code {T}.

Definition default_success_message : string := "请求成功".

Definition success_response {T} (data : payload T) (message : string) : t T :=
  mk true message data 200.

Definition error_response {T} (message : string) (status_code : Z) : t T :=
  mk false message (Raw VNone) status_code.

Definition error_map : list (Z * string) :=
  [ (400, "请求参数错误");
    (404, "资源不存在");
    (500, "服务器内部错误");
    (502, "网关错误");
    (503, "服务不可用");
    (504, "网关超时") ].

Fixpoint lookup_code (status_code : Z) (table : list (Z * string)) : option string :=
  match table with
  | [] => None
  | (code, text) :: table' =>
      if code =? status_code then Some text else lookup_code status_code table'
  end.

Definition _get_error_message (status_code : Z) : string :=
  match lookup_code status_code error_map with
  | Some text => text
  | None => "HTTP错误 " +:+ pretty status_code
  end.

Definition from_http_response `{Builtins} {T} (status_code : Z) (response_data : pyval) : t T :=
  if status_code =? 200 then success_response (Raw response_data) default_success_message
  else
    let error_msg := _get_error_message status_code in
    error_response (error_msg +:+ ": " +:+ str response_data) status_code.

(** The same response seen at another object class. *)
Definition map_obj {T U} (f : T -> U) (r : t T) : t U :=
  mk (success r) (message r)
     (match data r with Raw v => Raw v | Obj o => Obj (f o) end)
     (status_code r).

End APIResponse.

(** Module-level helpers of [models.py]. *)
Definition calculate_days_until `{Datetime} (date_str : pyval) (now : Z) : Z :=
  match TimeGroupedEvents.days_try date_str now with
  | Ok days => days
  | Raise _ => 0
  end.

Definition format_coordinate_url (coordinate : string) : string :=
  if String.eqb coordinate "" then ""
  else "https://uri.amap.com/marker?position=" +:+ coordinate.

Definition group_events_by_time (now : Q) (events : list ACGEvent.t)
  : result (list (pyval * list ACGEvent.t)) :=
  TimeGroupedEvents.from_events_loop (fun _ => now) 0 events [].

(** ** api_client.py *)

(** What [httpx] does with one request: a reply, whose body
    [response.json()] either decodes ([json]) or rejects, or one of the
    exceptions the client tells apart. *)
Module Httpx.

Inductive outcome : Type :=
| Response (status_code : Z) (json : option pyval) (text : string)
| TimeoutException
| ConnectError
| OtherException (msg : string).

Class Transport := {
  World : Type;
  send : string -> string -> option (list (string * pyval)) -> Z -> World -> outcome * World
}.

End Httpx.
Import Httpx.

Module ACGalaxyAPIClient.
Import APIResponse.

Record t : Type := mk {
  base_url : string;
  timeout : Z
}.

(** [__init__]: the base URL loses its trailing slashes. *)
Definition init (base_url : string) (timeout : Z) : t :=
  mk (rstrip "/" base_url) timeout.

(** [event.__dict__.copy()] with the key ["guest"] added. *)
Record event_dict : Type := mk_event_dict {
  event : ACGEvent.t;
  guest : Guest.t
}.

(** What [search_guest_events] may hand back as [data]: the guest list of
    a response it passes on, or its own [result_data] dict. *)
Inductive search_data : Type :=
| GuestList (guest_list : GuestListResponse.t)
| ResultData (guests : list Guest.t) (events : list event_dict) (total_count : Z).

Section Client.
Context `{Builtins} `{Transport}.

(** An awaited call: it may use the network, and so moves the world on. *)
Definition async (A : Type) : Type := World -> A * World.

(** A response of [_make_request] never carries a model object. *)
Definition raw_data (response : APIResponse.t Empty_set) : pyval :=
  match data response with
  | Raw v => v
  | Obj o => match o with end
  end.

(** [return response]: the transport's response, handed on as it is. *)
Definition pass_on {T} (response : APIResponse.t Empty_set) : APIResponse.t T :=
  map_obj (fun o : Empty_set => match o with end) response.

(** [except Exception as e: return error_response(f"{prefix}{e}")] *)
Definition or_error {T} (prefix : string) (body : result (APIResponse.t T)) : APIResponse.t T :=
  match body with
  | Ok response => response
  | Raise e => error_response (prefix +:+ exn_str e) 500
  end.

Definition _make_request (self : t) (method endpoint : string)
    (params : option (list (string * pyval))) : async (APIResponse.t Empty_set) :=
  fun w =>
    let url := base_url self +:+ endpoint in
    let respond (o : outcome) : APIResponse.t Empty_set :=
      match o with
      | Response status_code json text =>
          let response_data :=
            match json with
            | Some v => v
            | None => VDict [("error", VStr text)]
            end in
          from_http_response status_code response_data
      | TimeoutException => error_response "请求超时" 408
      | ConnectError => error_response "连接失败" 503
      | OtherException msg => error_response msg 500
      end in
    if String.eqb (upper method) "GET" then
      let '(o, w') := send "GET" url params (timeout self) w in (respond o, w')
    else if String.eqb (upper method) "POST" then
      let '(o, w') := send "POST" url params (timeout self) w in (respond o, w')
    else (error_response ("不支持的HTTP方法: " +:+ method) 500, w).

Definition get_acg_info (self : t) (acg_id : string) : async (APIResponse.t ACGEvent.t) :=
  fun w =>
    let '(response, w') := _make_request self "GET" ("/detail/" +:+ acg_id) None w in
    (or_error "获取漫展信息失败: "
       (if success response && truthy (raw_data response) then
          let* event_data := get (raw_data response) "data" VNone in
          if truthy event_data then
            let* event := ACGEvent.from_dict event_data in
            Ok (success_response (Obj event) "获取漫展信息成功")
          else Ok (error_response "漫展信息不存在" 404)
        else Ok (pass_on response)),
     w').

(** The [params] dict of [get_acg_list]. *)
Definition acg_list_params (city_id : Z) (city_name key order : option string)
    (page count : option Z) : list (string * pyval) :=
  let params := [("city_id", VInt city_id)] in
  let params :=
    match city_name with
    | Some s => if truthy (VStr s) then setitem "city_name" (VStr s) params else params
    | None => params
    end in
  let params :=
    match key with
    | Some s => if truthy (VStr s) then setitem "key" (VStr s) params else params
    | None => params
    end in
  let params :=
    match order with
    | Some s => if truthy (VStr s) then setitem "order" (VStr s) params else params
    | None => params
    end in
  let params :=
    match page with
    | Some n => if truthy (VInt n) then setitem "page" (VInt n) params else params
    | None => params
    end in
  match count with
  | Some n => if truthy (VInt n) then setitem "count" (VInt n) params else params
  | None => params
  end.

Definition get_acg_list (self : t) (city_id : Z) (city_name key order : option string)
    (page count : option Z) : async (APIResponse.t ACGListResponse.t) :=
  fun w =>
    let params := acg_list_params city_id city_name key order page count in
    let '(response, w') := _make_request self "GET" "/list" (Some params) w in
    (or_error "获取漫展列表失败: "
       (if success response && truthy (raw_data response) then
          let* acg_list := ACGListResponse.from_dict (raw_data response) in
          Ok (success_response (Obj acg_list) "获取漫展列表成功")
        else Ok (pass_on response)),
     w').

Definition get_guest_list (self : t) (guest_name : string)
  : async (APIResponse.t GuestListResponse.t) :=
  fun w =>
    let params := [("guest_name", VStr guest_name)] in
    let '(response, w') := _make_request self "GET" "/guests" (Some params) w in
    (or_error "获取嘉宾列表失败: "
       (if success response && truthy (raw_data response) then
          let* guest_list := GuestListResponse.from_dict (raw_data response) in
          Ok (success_response (Obj guest_list) "获取嘉宾列表成功")
        else Ok (pass_on response)),
     w').

Definition get_guest_acg_list (self : t) (guest_id : string)
  : async (APIResponse.t GuestACGListResponse.t) :=
  fun w =>
    let '(response, w') := _make_request self "GET" ("/guest/" +:+ guest_id) None w in
    (or_error "获取嘉宾相关漫展失败: "
       (if success response && truthy (raw_data response) then
          let* guest_acg_list := GuestACGListResponse.from_dict (raw_data response) in
          Ok (success_response (Obj guest_acg_list) "获取嘉宾相关漫展成功")
        else Ok (pass_on response)),
     w').

Definition search_acg_events (self : t) (keyword : string) (count : Z)
  : async (APIResponse.t ACGListResponse.t) :=
  get_acg_list self 0 None (Some keyword) None None (Some count).

Definition get_city_acg_calendar (self : t) (city_name : string) (count : Z)
  : async (APIResponse.t ACGListResponse.t) :=
  get_acg_list self 0 (Some city_name) None (Some "time") None (Some count).

(** The loop over the guests in [search_guest_events].  A response that
    is not a success is skipped; a success is read through
    [guest_acg_data.projects]. *)
Fixpoint collect_guest_events (self : t) (guests : list Guest.t)
    (all_events : list event_dict) : async (result (list event_dict)) :=
  fun w =>
    match guests with
    | [] => (Ok all_events, w)
    | guest :: rest =>
        let '(acg_response, w') := get_guest_acg_list self (Guest.id guest) w in
        if success acg_response then
          match data acg_response with
          | Obj guest_acg_data =>
              collect_guest_events self rest
                (all_events ++
                 map (fun event => mk_event_dict event guest)
                     (GuestACGListResponse.projects guest_acg_data))
                w'
          | Raw v => (Raise (no_attribute v "projects"), w')
          end
        else collect_guest_events self rest all_events w'
    end.

Definition search_guest_events (self : t) (guest_name : string)
  : async (APIResponse.t search_data) :=
  fun w =>
    let '(guest_response, w1) := get_guest_list self guest_name w in
    if negb (success guest_response) then (map_obj GuestList guest_response, w1)
    else
      match data guest_response with
      | Raw v => (or_error "搜索嘉宾相关漫展失败: " (Raise (no_attribute v "data")), w1)
      | Obj guest_list =>
          match GuestListResponse.data guest_list with
          | [] => (error_response "未找到相关嘉宾信息" 404, w1)
          | _ =>
              let '(collected, w2) :=
                collect_guest_events self (GuestListResponse.data guest_list) [] w1 in
              (or_error "搜索嘉宾相关漫展失败: "
                 (let* all_events := collected in
                  Ok (success_response
                        (Obj (ResultData (GuestListResponse.data guest_list) all_events
                                         (Z.of_nat (length all_events))))
                        "搜索嘉宾相关漫展成功")),
               w2)
          end
      end.

Definition get_coordinate_url (self : t) (coordinate : string) : string :=
  if String.eqb coordinate "" then ""
  else "https://uri.amap.com/marker?position=" +:+ coordinate.

Definition test_connection (self : t) : async (APIResponse.t Empty_set) :=
  fun w =>
    let '(response, w') := _make_request self "GET" "/list" (Some [("count", VInt 1)]) w in
    (if success response then success_response (Raw VNone) "API连接正常"
     else error_response ("API连接失败: " +:+ message response) 500,
     w').

End Client.

End ACGalaxyAPIClient.

(** ** main.py: the response cache *)

Module ACGalaxyPlugin.

(** The plugin state the cache methods use: [self.cache], a dict from a
    key to the pair (data, timestamp), and [self.cache_expire_time] in
    seconds.  Timestamps are readings of [time.time()]. *)
Record t (V : Type) : Type := mk {
  cache : gmap string (V * Q);
  cache_expire_time : Q
}.
Arguments mk {V}.
Arguments cache {V}.
Arguments cache_expire_time {V}.

Definition Qltb (x y : Q) : bool := negb (Qle_bool y x).

(** [get_cached_data] at the clock reading [now]: the value returned
    ([None] for Python's [None]) and the plugin state afterwards.  Two
    readings of the clock lie within a factor of two of each other, so
    their float difference is the exact difference. *)
Definition get_cached_data {V} (self : t V) (key : string) (now : Q) : option V * t V :=
  match cache self !! key with
  | Some (data, timestamp) =>
      if Qltb (now - timestamp)%Q (cache_expire_time self) then (Some data, self)
      else (None, mk (delete key (cache self)) (cache_expire_time self))
  | None => (None, self)
  end.

(** [set_cached_data] at the clock reading [now]. *)
Definition set_cached_data {V} (self : t V) (key : string) (data : V) (now : Q) : t V :=
  mk (<[key := (data, now)]> (cache self)) (cache_expire_time self).

(** The configuration entries the calendar command reads, defaults
    applied: [default_city] and [max_results_per_page]. *)
Record config : Type := mk_config {
  default_city : string;
  max_results_per_page : Z
}.

Section Calendar.
Context `{Builtins} `{Transport}.

(** The first part of [acg_calendar_command], with the client
    initialised, up to the response the command goes on with: the city
    defaults when empty, the cache is asked under ["calendar_<city>"]
    (a cached response is an object and so truthy), and on a miss the
    client is called and a Success is stored.  [now_get] and [now_set]
    are the clock readings of [get_cached_data] and of
    [set_cached_data]. *)
Definition calendar_response
    (self : t (APIResponse.t ACGListResponse.t)) (cfg : config)
    (api_client : ACGalaxyAPIClient.t) (city : string) (now_get now_set : Q)
  : World -> (APIResponse.t ACGListResponse.t * t (APIResponse.t ACGListResponse.t)) * World :=
  fun w =>
    let city := if String.eqb city "" then default_city cfg else city in
    let cache_key := "calendar_" +:+ city in
    let '(cached_data, self) := get_cached_data self cache_key now_get in
    match cached_data with
    | Some response => ((response, self), w)
    | None =>
        let max_results := max_results_per_page cfg in
        let '(response, w') :=
          ACGalaxyAPIClient.get_city_acg_calendar api_client city max_results w in
        if APIResponse.success response
        then ((response, set_cached_data self cache_key response now_set), w')
        else ((response, self), w')
    end.

End Calendar.

End ACGalaxyPlugin.

(** ** Instances to run the model on *)

Module Concrete.

(** [repr] for values whose strings need no escaping (printable ASCII
    without quotes or backslashes). *)
Fixpoint repr (v : pyval) : string :=
  match v with
  | VNone => "None"
  | VBool b => if b then "True" else "False"
  | VInt z => pretty z
  | VStr s => "'" +:+ s +:+ "'"
  | VList l =>
      "[" +:+
      (fix items (l : list pyval) : string :=
         match l with
         | [] => ""
         | [x] => repr x
         | x :: l' => repr x +:+ ", " +:+ items l'
         end) l +:+ "]"
  | VDict d =>
      "{" +:+
      (fix items (d : list (string * pyval)) : string :=
         match d with
         | [] => ""
         | [(k, x)] => "'" +:+ k +:+ "': " +:+ repr x
         | (k, x) :: d' => "'" +:+ k +:+ "': " +:+ repr x +:+ ", " +:+ items d'
         end) d +:+ "}"
  end.

#[export] Instance builtins : Builtins := {| repr_container := repr |}.

(** [strptime(data, "%Y-%m-%d")] on ASCII digits, after the pattern the
    library compiles the format to:
    year [\d\d\d\d], month [1[0-2]|0[1-9]|[1-9]],
    day [3[01]|[12]\d|0[1-9]|[1-9]| [1-9]], each alternative tried in
    that order, and nothing may follow the day. *)
Definition digit (c : Ascii.ascii) : option Z :=
  let n := Ascii.nat_of_ascii c in
  if ((48 <=? n) && (n <=? 57))%nat then Some (Z.of_nat n - 48) else None.

Definition digit_in (lo hi : Z) (c : Ascii.ascii) : option Z :=
  match digit c with
  | Some d => if (lo <=? d) && (d <=? hi) then Some d else None
  | None => None
  end.

Definition parse_year (s : string) : option (Z * string) :=
  match s with
  | String a (String b (String c (String d rest))) =>
      match digit a, digit b, digit c, digit d with
      | Some a, Some b, Some c, Some d => Some (1000 * a + 100 * b + 10 * c + d, rest)
      | _, _, _, _ => None
      end
  | _ => None
  end.

Definition parse_dash (s : string) : option string :=
  match s with
  | String c rest => if Ascii.eqb c "-" then Some rest else None
  | EmptyString => None
  end.

(** Two characters [c1 c2] with [c1] the given digit and [c2] in range. *)
Definition two_digits (tens lo hi : Z) (s : string) : option (Z * string) :=
  match s with
  | String c1 (String c2 rest) =>
      match digit_in tens tens c1, digit_in lo hi c2 with
      | Some t, Some u => Some (10 * t + u, rest)
      | _, _ => None
      end
  | _ => None
  end.

Definition one_digit (s : string) : option (Z * string) :=
  match s with
  | String c rest =>
      match digit_in 1 9 c with
      | Some d => Some (d, rest)
      | None => None
      end
  | EmptyString => None
  end.

Definition or_else {A} (x y : option A) : option A :=
  match x with
  | Some _ => x
  | None => y
  end.

Definition parse_month (s : string) : option (Z * string) :=
  or_else (two_digits 1 0 2 s) (or_else (two_digits 0 1 9 s) (one_digit s)).

Definition parse_day (s : string) : option (Z * string) :=
  or_else (two_digits 3 0 1 s)
    (or_else (or_else (two_digits 1 0 9 s) (two_digits 2 0 9 s))
       (or_else (two_digits 0 1 9 s)
          (or_else (one_digit s)
             (match s with
              | String c rest => if Ascii.eqb c " " then one_digit rest else None
              | EmptyString => None
              end)))).

Definition is_leap (y : Z) : bool :=
  ((y mod 4 =? 0) && negb (y mod 100 =? 0)) || (y mod 400 =? 0).

Definition days_in_month (y m : Z) : Z :=
  if m =? 2 then (if is_leap y then 29 else 28)
  else if (m =? 4) || (m =? 6) || (m =? 9) || (m =? 11) then 30
  else 31.

Definition days_before_year (y : Z) : Z :=
  let p := y - 1 in
  p * 365 + p / 4 - p / 100 + p / 400.

Fixpoint days_before_month (y : Z) (m : nat) : Z :=
  match m with
  | O => 0
  | S m' => days_before_month y m' + days_in_month y (Z.of_nat m)
  end.

(** Midnight of the day, in microseconds since 0001-01-01. *)
Definition midnight (y m d : Z) : Z :=
  (days_before_year y + days_before_month y (Z.to_nat (m - 1)) + (d - 1))
  * microseconds_per_day.

Definition strptime_ymd (data : string) : option Z :=
  match parse_year data with
  | Some (y, rest) =>
      match parse_dash rest with
      | Some rest =>
          match parse_month rest with
          | Some (m, rest) =>
              match parse_dash rest with
              | Some rest =>
                  match parse_day rest with
                  | Some (d, EmptyString) =>
                      if (1 <=? y) && (d <=? days_in_month y m)
                      then Some (midnight y m d) else None
                  | _ => None
                  end
              | None => None
              end
          | None => None
          end
      | None => None
      end
  | None => None
  end.

#[export] Instance datetime : Datetime :=
  {| strptime data fmt := if String.eqb fmt "%Y-%m-%d" then strptime_ymd data else None |}.

(** A scripted network: the world is the list of outcomes still to come,
    one for each request; when the script runs out the connection fails. *)
#[export] Instance scripted : Transport :=
  {| World := list outcome;
     send _ _ _ _ w :=
       match w with
       | o :: w' => (o, w')
       | [] => (ConnectError, [])
       end |}.

Definition client : ACGalaxyAPIClient.t :=
  ACGalaxyAPIClient.init "https://acg.s1f.ren/" 30.

End Concrete.

(** * Vocabulary of the properties *)

(** The body handed to [from_http_response]: the decoded JSON, or the
    text wrapped under ["error"] when the body is not JSON. *)
Definition decoded_body (json : option pyval) (text : string) : pyval :=
  match json with
  | Some v => v
  | None => VDict [("error", VStr text)]
  end.

(** What the caller supplied for a parameter name, as a Python value;
    [None] for an argument left out. *)
Definition supplied (city_id : Z) (city_name key order : option string)
    (page count : option Z) (name : string) : option pyval :=
  if String.eqb name "city_id" then Some (VInt city_id)
  else if String.eqb name "city_name" then VStr <$> city_name
  else if String.eqb name "key" then VStr <$> key
  else if String.eqb name "order" then VStr <$> order
  else if String.eqb name "page" then VInt <$> page
  else if String.eqb name "count" then VInt <$> count
  else None.

(** Non-empty: supplied and truthy (not [None], not the empty string,
    not zero). *)
Definition non_empty (v : option pyval) : bool :=
  match v with
  | Some x => truthy x
  | None => false
  end.

(** One conditional assignment [if value: params[name] = value]. *)
Definition put (name : string) (value : option pyval) (params : list (string * pyval))
  : list (string * pyval) :=
  match value with
  | Some x => if truthy x then setitem name x params else params
  | None => params
  end.

(** A transport that also keeps the list of the requests made on it:
    method, URL, parameters and timeout of each, oldest first. *)
Definition request : Type :=
  (string * string * option (list (string * pyval)) * Z)%type.

Definition recording (T : Transport) : Transport :=
  {| World := list request * @World T;
     send method url params timeout w :=
       let '(o, w') := @send T method url params timeout (snd w) in
       (o, (fst w ++ [(method, url, params, timeout)], w')) |}.

(** The characters of [s] before its first space; all of [s] when it has
    no space. *)
Fixpoint before_first_space (s : string) : string :=
  match s with
  | EmptyString => EmptyString
  | String c s' =>
      if Ascii.eqb c " " then EmptyString else String c (before_first_space s')
  end.

(** An event as the dataclass declares it where grouping reads it:
    [start_time] a string, [start_unix] and [end_unix] integers. *)
Definition event_typed (e : ACGEvent.t) : Prop :=
  exists (s : string) (a b : Z),
    ACGEvent.start_time e = VStr s /\
    ACGEvent.start_unix e = VInt a /\
    ACGEvent.end_unix e = VInt b.

Definition int_of (v : pyval) : Z :=
  match v with
  | VInt z => z
  | _ => 0
  end.

Definition str_of (v : pyval) : string :=
  match v with
  | VStr s => s
  | _ => EmptyString
  end.

(** [now] lies in the closed interval from [start_unix] to [end_unix]. *)
Definition covers (e : ACGEvent.t) (now : Q) : Prop :=
  (inject_Z (int_of (ACGEvent.start_unix e)) <= now)%Q /\
  (now <= inject_Z (int_of (ACGEvent.end_unix e)))%Q.

Definition coversb (e : ACGEvent.t) (now : Q) : bool :=
  Qle_bool (inject_Z (int_of (ACGEvent.start_unix e))) now &&
  Qle_bool now (inject_Z (int_of (ACGEvent.end_unix e))).

(** The bucket the specification assigns to an event. *)
Definition bucket_of (now : Q) (e : ACGEvent.t) : string :=
  if coversb e now then "进行中" else str_of (ACGEvent.start_time e).

(** The events of a list that belong to bucket [s], in their order. *)
Definition members (now : Q) (s : string) (events : list ACGEvent.t) : list ACGEvent.t :=
  List.filter (fun e => String.eqb (bucket_of now e) s) events.

(** The buckets built so far, for the events [seen]: string keys without
    repetition, each bucket holding exactly its members among [seen] and
    at least one, and a bucket for every event of [seen]. *)
Definition grouped (now : Q) (seen : list ACGEvent.t)
    (d : list (pyval * list ACGEvent.t)) : Prop :=
  List.NoDup (map fst d) /\
  (forall k es, In (k, es) d ->
     exists s, k = VStr s /\ es = members now s seen /\ es <> []) /\
  (forall e, In e seen -> In (VStr (bucket_of now e)) (map fst d)).

(** One guest's events, each tagged with the guest. *)
Definition tagged (guest : Guest.t) (projects : list ACGEvent.t)
  : list ACGalaxyAPIClient.event_dict :=
  map (fun event => ACGalaxyAPIClient.mk_event_dict event guest) projects.

Section GuestSearchVocabulary.
Context `{Builtins} `{Transport}.
Import APIResponse ACGalaxyAPIClient.

(** What the specification expects of the per-guest fetches, made one
    after the other from world [w]: the tagged events of every guest
    whose fetch is a Success, in the order of the guests, a failed fetch
    giving nothing; and the world after the last fetch. *)
Fixpoint fetched_events (self : ACGalaxyAPIClient.t) (guests : list Guest.t) (w : World)
  : list event_dict * World :=
  match guests with
  | [] => ([], w)
  | guest :: rest =>
      let '(acg_response, w') := get_guest_acg_list self (Guest.id guest) w in
      let '(others, w'') := fetched_events self rest w' in
      (match success acg_response, data acg_response with
       | true, Obj guest_acg_data =>
           tagged guest (GuestACGListResponse.projects guest_acg_data) ++ others
       | _, _ => others
       end, w'')
  end.

(** Every per-guest fetch of the run from [w] either fails or is a
    Success that carries a parsed [GuestACGListResponse]. *)
Fixpoint fetches_settled (self : ACGalaxyAPIClient.t) (guests : list Guest.t) (w : World)
  : Prop :=
  match guests with
  | [] => True
  | guest :: rest =>
      let '(acg_response, w') := get_guest_acg_list self (Guest.id guest) w in
      (success acg_response = true -> exists o, data acg_response = Obj o) /\
      fetches_settled self rest w'
  end.

End GuestSearchVocabulary.

(** The response [_make_request] builds from what the transport did. *)
Definition response_of `{Builtins} (o : outcome) : APIResponse.t Empty_set :=
  match o with
  | Response status_code json text =>
      APIResponse.from_http_response status_code (decoded_body json text)
  | TimeoutException => APIResponse.error_response "请求超时" 408
  | ConnectError => APIResponse.error_response "连接失败" 503
  | OtherException msg => APIResponse.error_response msg 500
  end.

(** A value that is a JSON object. *)
Definition is_dict (v : pyval) : Prop := exists d, v = VDict d.

(** The elements of a list in the order of their first occurrence. *)
Fixpoint first_seen_from (seen : list string) (l : list string) : list string :=
  match l with
  | [] => []
  | x :: l' =>
      if existsb (String.eqb x) seen then first_seen_from seen l'
      else x :: first_seen_from (x :: seen) l'
  end.

Definition first_seen (l : list string) : list string := first_seen_from [] l.

(** The request that fetches the events of one guest. *)
Definition guest_request (self : ACGalaxyAPIClient.t) (guest : Guest.t) : request :=
  ("GET", ACGalaxyAPIClient.base_url self +:+ "/guest/" +:+ Guest.id guest, None,
   ACGalaxyAPIClient.timeout self).

(** [s.isascii()]: every character of the string is below 128.  On such
    a string [Py.upper] is [str.upper()]; a character outside ASCII can
    have an upper case made of ASCII letters. *)
Definition isascii (s : string) : bool :=
  forallb (fun c => (Ascii.N_of_ascii c <? 128)%N) (String.list_ascii_of_string s).

(** The values that [<=] does not order with a float: None, a string, a
    list, a dict. *)
Definition unordered_with_float (v : pyval) : bool :=
  match v with
  | VNone | VStr _ | VList _ | VDict _ => true
  | VBool _ | VInt _ => false
  end.

(** * Sample data for the runs *)

(** An event with the given prices and nothing else filled in. *)
Definition priced_event (min_price max_price : Z) : ACGEvent.t :=
  ACGEvent.mk "X1" (VStr "") (VStr "") (VStr "") (VInt 0) (VInt 0) (VStr "") (VStr "")
    (VInt min_price) (VInt max_price) (VInt 0) (VInt 0) VNone VNone VNone.

Definition sample_item : list (string * pyval) :=
  [ ("id", VStr "X1"); ("project_name", VStr "Comic Fair");
    ("start_time", VStr "2030-05-01"); ("end_time", VStr "2030-05-03");
    ("start_unix", VInt 1903824000); ("end_unix", VInt 1904083199);
    ("city", VStr "Shanghai"); ("venue_name", VStr "Expo Hall");
    ("min_price", VInt 2000); ("max_price", VInt 5000);
    ("like_count", VInt 12); ("has_npc", VInt 1) ].

(** The same item with the id as a JSON number. *)
Definition numeric_id_item : list (string * pyval) :=
  [ ("id", VInt 73710); ("project_name", VStr "Comic Fair");
    ("start_time", VStr "2030-05-01"); ("end_time", VStr "2030-05-03");
    ("start_unix", VInt 1903824000); ("end_unix", VInt 1904083199);
    ("city", VStr "Shanghai"); ("venue_name", VStr "Expo Hall");
    ("min_price", VInt 2000); ("max_price", VInt 5000);
    ("like_count", VInt 12); ("has_npc", VInt 1) ].

Definition empty_plugin : ACGalaxyPlugin.t string :=
  ACGalaxyPlugin.mk ∅ (inject_Z 1800).

(** Runs with the ASCII parser; the clock reads 2030-05-01T12:00:00. *)
Definition noon_2030_05_01 : Z :=
  Concrete.midnight 2030 5 1 + 12 * 3600 * 1000000.

Definition no_groups : TimeGroupedEvents.t := TimeGroupedEvents.mk [].

Definition timed_event (id start_time : string) (start_unix end_unix : Z) : ACGEvent.t :=
  ACGEvent.mk id (VStr "") (VStr start_time) (VStr "") (VInt start_unix) (VInt end_unix)
    (VStr "") (VStr "") (VInt 0) (VInt 0) (VInt 0) (VInt 0) VNone VNone VNone.

Definition calendar_events : list ACGEvent.t :=
  [ timed_event "A" "2030-06-01" 1906502400 1906588799;
    timed_event "B" "2030-05-01" 1903824000 1904083199;
    timed_event "C" "2030-06-01" 1906502400 1906675199;
    timed_event "D" "2030-04-30" 1903737600 1903900000 ].

Definition sample_event : ACGEvent.t :=
  ACGEvent.mk "X1" (VStr "Comic Fair") (VStr "2030-05-01") (VStr "2030-05-03")
    (VInt 1903824000) (VInt 1904083199) (VStr "Shanghai") (VStr "Expo Hall")
    (VInt 2000) (VInt 5000) (VInt 12) (VInt 1) VNone VNone VNone.

Definition guest_aoi : Guest.t := Guest.mk "1" (VStr "Aoi") (VStr "") VNone.

Definition guest_rin : Guest.t := Guest.mk "2" (VStr "Rin") (VStr "") VNone.

Definition guest_item (id : Z) (name : string) : pyval :=
  VDict [("id", VInt id); ("name", VStr name); ("description", VStr "")].

Definition guests_body (guests : list pyval) : pyval :=
  VDict [("code", VInt 0); ("data", VList guests)].

Definition guest_events_body (id : Z) (name : string) (projects : list pyval) : pyval :=
  VDict [("code", VInt 0);
         ("data", VDict [("guest", guest_item id name); ("projects", VList projects)])].

(** The guest search finds nobody; the reply that follows in the script
    is a per-guest fetch that would have succeeded. *)
Definition nobody_world : list outcome :=
  [ Response 200 (Some (guests_body [])) "";
    Response 200 (Some (guest_events_body 1 "Aoi" [VDict sample_item])) "" ].

(** Two guests are found; the fetch for the first fails with HTTP 500
    and the fetch for the second succeeds with one event. *)
Definition two_guests_world : list outcome :=
  [ Response 200 (Some (guests_body [guest_item 1 "Aoi"; guest_item 2 "Rin"])) "";
    Response 500 None "Internal Server Error";
    Response 200 (Some (guest_events_body 2 "Rin" [VDict sample_item])) "" ].

(** A collection reply with two items, and one whose second item is
    a string. *)
Definition list_fields : list (string * pyval) :=
  [("count", VInt 2); ("data", VList [VDict sample_item; VDict numeric_id_item])].

Definition spoiled_list_fields : list (string * pyval) :=
  [("count", VInt 3);
   ("data", VList [VDict sample_item; VStr "oops"; VDict numeric_id_item])].

Definition numeric_id_event : ACGEvent.t :=
  ACGEvent.mk "73710" (VStr "Comic Fair") (VStr "2030-05-01") (VStr "2030-05-03")
    (VInt 1903824000) (VInt 1904083199) (VStr "Shanghai") (VStr "Expo Hall")
    (VInt 2000) (VInt 5000) (VInt 12) (VInt 1) VNone VNone VNone.

(** A stored calendar response and a plugin whose cache holds it. *)
Definition calendar_reply : APIResponse.t ACGListResponse.t :=
  APIResponse.success_response
    (APIResponse.Obj (ACGListResponse.mk (VInt 1) [sample_event])) "获取漫展列表成功".

Definition calendar_plugin : ACGalaxyPlugin.t (APIResponse.t ACGListResponse.t) :=
  ACGalaxyPlugin.mk {[ "calendar_Shanghai" := (calendar_reply, inject_Z 1000) ]}
    (inject_Z 1800).

Definition fresh_plugin : ACGalaxyPlugin.t (APIResponse.t ACGListResponse.t) :=
  ACGalaxyPlugin.mk ∅ (inject_Z 1800).

Definition sample_config : ACGalaxyPlugin.config :=
  ACGalaxyPlugin.mk_config "北京" 100.

(** An event whose times the server left out. *)
Definition untimed_event : ACGEvent.t :=
  ACGEvent.mk "U" (VStr "") (VStr "2030-06-01") (VStr "") VNone VNone
    (VStr "") (VStr "") (VInt 0) (VInt 0) (VInt 0) (VInt 0) VNone VNone VNone.

(** * Properties *)

(** ** Price display *)

Section PriceRange.

(** The mark written in the source is the three bytes EF BF A5, the UTF-8
    form of U+FFE5; U+00A5 YEN SIGN is the two bytes C2 A5. *)
Lemma yuan_mark_bytes :
  ACGEvent.yuan_mark
  = String (Ascii.ascii_of_nat 239)
      (String (Ascii.ascii_of_nat 191) (String (Ascii.ascii_of_nat 165) EmptyString)).
Proof. reflexivity. Qed.

Lemma round_half_even_whole (k : Z) :
  0 <= k -> ACGEvent.round_half_even (100 * k) = k.
Proof.
  intros Hk. unfold ACGEvent.round_half_even.
  rewrite Z.abs_eq by lia.
  replace (100 * k) with (k * 100) by lia.
  rewrite Z_mod_mult, Z_div_mult by lia.
  reflexivity.
Qed.

Lemma format_yuan_whole (k : Z) :
  0 <= k -> ACGEvent.format_yuan (100 * k) = pretty k.
Proof.
  intros Hk. unfold ACGEvent.format_yuan.
  rewrite round_half_even_whole by assumption.
  destruct (Z.ltb_spec (100 * k) 0) as [Hneg|_]; [lia|reflexivity].
Qed.

(** Whole prices: one value when the two prices are equal, a dashed range
    otherwise, each price shown in yuan. *)
Lemma price_range_yuan_whole (e : ACGEvent.t) (a b : Z) :
  0 <= a -> 0 <= b ->
  ACGEvent.min_price e = VInt (100 * a) ->
  ACGEvent.max_price e = VInt (100 * b) ->
  ACGEvent.price_range_yuan e
  = Ok (if a =? b then ACGEvent.yuan_mark +:+ pretty a
        else ACGEvent.yuan_mark +:+ pretty a +:+ " - " +:+ pretty b).
Proof.
  intros Ha Hb Hmin Hmax. unfold ACGEvent.price_range_yuan, ACGEvent.div100.
  rewrite Hmin, Hmax. cbn [as_number rbind].
  rewrite !format_yuan_whole by assumption.
  destruct (Z.eqb_spec a b) as [->|Hne].
  - rewrite Z.eqb_refl. reflexivity.
  - destruct (Z.eqb_spec (100 * a) (100 * b)); [lia|reflexivity].
Qed.

(** C7, as the code has it: with both prices 3000 the display is the
    fullwidth yen sign U+FFE5 followed by 30, and with prices 2000 and
    5000 it is U+FFE5 followed by "20 - 50". *)
Theorem price_range_yuan_examples (e : ACGEvent.t) :
  (ACGEvent.min_price e = VInt 3000 -> ACGEvent.max_price e = VInt 3000 ->
   ACGEvent.price_range_yuan e = Ok "￥30") /\
  (ACGEvent.min_price e = VInt 2000 -> ACGEvent.max_price e = VInt 5000 ->
   ACGEvent.price_range_yuan e = Ok "￥20 - 50").
Proof.
  split; intros Hmin Hmax.
  - rewrite (price_range_yuan_whole e 30 30); [reflexivity|lia|lia|exact Hmin|exact Hmax].
  - rewrite (price_range_yuan_whole e 20 50); [reflexivity|lia|lia|exact Hmin|exact Hmax].
Qed.

End PriceRange.

Lemma price_range_yuan_examples_witness :
  ACGEvent.price_range_yuan (priced_event 3000 3000) = Ok "￥30".
Proof.
  apply (proj1 (price_range_yuan_examples (priced_event 3000 3000))); reflexivity.
Defined.

(** C7 as stated fails: the display does not start with U+00A5. *)
Lemma price_range_yuan_not_yen_sign :
  ACGEvent.price_range_yuan (priced_event 3000 3000) <> Ok "¥30".
Proof. vm_compute. discriminate. Qed.

(** ** Building an event from an API item *)

Section FromDict.
Context `{Builtins}.

Lemma get_present (d : list (string * pyval)) (key : string) (default v : pyval) :
  assoc key d = Some v -> get (VDict d) key default = Ok v.
Proof. intros Hk. unfold get. rewrite Hk. reflexivity. Qed.

(** An item that is a dict always parses. *)
Lemma from_dict_dict (d : list (string * pyval)) :
  exists e, ACGEvent.from_dict (VDict d) = Ok e.
Proof. unfold ACGEvent.from_dict. cbn [get rbind]. eexists. reflexivity. Qed.

(** [id] is the item's id put through [str()]. *)
Lemma from_dict_id (d : list (string * pyval)) (v : pyval) (e : ACGEvent.t) :
  assoc "id" d = Some v ->
  ACGEvent.from_dict (VDict d) = Ok e ->
  ACGEvent.id e = str v.
Proof.
  intros Hid. unfold ACGEvent.from_dict. cbn [get rbind]. rewrite Hid.
  intros [= <-]. reflexivity.
Qed.

(** C9, as the code has it: an item that supplies id, project_name,
    min_price, max_price, start_unix and end_unix parses to an event
    whose project_name, prices and unix timestamps are the item's values
    unchanged and whose id is the item's id put through [str()], which is
    the item's id itself when that is a string. *)
Theorem from_dict_round_trip (d : list (string * pyval))
    (v_id v_project_name v_min_price v_max_price v_start_unix v_end_unix : pyval) :
  assoc "id" d = Some v_id ->
  assoc "project_name" d = Some v_project_name ->
  assoc "min_price" d = Some v_min_price ->
  assoc "max_price" d = Some v_max_price ->
  assoc "start_unix" d = Some v_start_unix ->
  assoc "end_unix" d = Some v_end_unix ->
  exists e,
    ACGEvent.from_dict (VDict d) = Ok e /\
    ACGEvent.id e = str v_id /\
    (forall s, v_id = VStr s -> ACGEvent.id e = s) /\
    ACGEvent.project_name e = v_project_name /\
    ACGEvent.min_price e = v_min_price /\
    ACGEvent.max_price e = v_max_price /\
    ACGEvent.start_unix e = v_start_unix /\
    ACGEvent.end_unix e = v_end_unix.
Proof.
  intros Hid Hname Hmin Hmax Hstart Hend.
  unfold ACGEvent.from_dict. cbn [get rbind].
  rewrite Hid, Hname, Hmin, Hmax, Hstart, Hend.
  eexists. split; [reflexivity|]. cbn. repeat split.
  intros s ->. reflexivity.
Qed.

(** A field the item does not supply takes its default. *)
Lemma from_dict_missing_defaults :
  exists e,
    ACGEvent.from_dict (VDict []) = Ok e /\
    ACGEvent.id e = "" /\ ACGEvent.project_name e = VStr "" /\
    ACGEvent.min_price e = VInt 0 /\ ACGEvent.max_price e = VInt 0 /\
    ACGEvent.start_unix e = VInt 0 /\ ACGEvent.end_unix e = VInt 0 /\
    ACGEvent.cover e = VNone.
Proof. eexists. split; [reflexivity|]. cbn. repeat split. Qed.

End FromDict.

Lemma from_dict_round_trip_witness :
  exists e,
    ACGEvent.from_dict (H := Concrete.builtins) (VDict sample_item) = Ok e /\
    ACGEvent.id e = "X1" /\
    ACGEvent.project_name e = VStr "Comic Fair" /\
    ACGEvent.min_price e = VInt 2000 /\
    ACGEvent.max_price e = VInt 5000 /\
    ACGEvent.start_unix e = VInt 1903824000 /\
    ACGEvent.end_unix e = VInt 1904083199.
Proof.
  destruct (from_dict_round_trip (H := Concrete.builtins) sample_item
              (VStr "X1") (VStr "Comic Fair") (VInt 2000) (VInt 5000)
              (VInt 1903824000) (VInt 1904083199)
              eq_refl eq_refl eq_refl eq_refl eq_refl eq_refl)
    as (e & Hparse & _ & Hid & Hname & Hmin & Hmax & Hstart & Hend).
  exists e. repeat split; try assumption. exact (Hid "X1" eq_refl).
Defined.

(** C9 as stated fails: an item whose id is the number 73710 supplies
    the six fields, and the id read back is the text "73710", which is
    not the number the item holds. *)
Lemma from_dict_numeric_id :
  exists e,
    ACGEvent.from_dict (H := Concrete.builtins) (VDict numeric_id_item) = Ok e /\
    ACGEvent.id e = "73710" /\
    VStr (ACGEvent.id e) <> VInt 73710 /\
    assoc "id" numeric_id_item = Some (VInt 73710).
Proof.
  eexists. split; [reflexivity|]. cbn. repeat split. discriminate.
Qed.

(** ** The reply of the request function *)

Section HttpReply.
Context `{Builtins} `{Transport}.
Import APIResponse ACGalaxyAPIClient.

Lemma get_error_message_table (status_code : Z) :
  _get_error_message status_code
  = match status_code with
    | 400 => "请求参数错误"
    | 404 => "资源不存在"
    | 500 => "服务器内部错误"
    | 502 => "网关错误"
    | 503 => "服务不可用"
    | 504 => "网关超时"
    | _ => "HTTP错误 " +:+ pretty status_code
    end.
Proof.
  unfold _get_error_message, error_map, lookup_code.
  repeat match goal with
         | |- context [?c =? status_code] =>
             destruct (Z.eqb_spec c status_code) as [<-|?]; [reflexivity|]
         end.
  destruct status_code as [|p|p]; try reflexivity.
  do 9 (destruct p as [p|p|]; try reflexivity); lia.
Qed.

Lemma from_http_response_200 {T} (response_data : pyval) :
  from_http_response (T := T) 200 response_data
  = success_response (Raw response_data) default_success_message.
Proof. reflexivity. Qed.

Lemma from_http_response_other {T} (status_code : Z) (response_data : pyval) :
  status_code <> 200 ->
  from_http_response (T := T) status_code response_data
  = error_response (_get_error_message status_code +:+ ": " +:+ str response_data)
      status_code.
Proof.
  intros Hne. unfold from_http_response.
  destruct (Z.eqb_spec status_code 200); [contradiction|reflexivity].
Qed.

(** A GET that receives a reply answers with [from_http_response] of
    the status and the decoded body. *)
Lemma make_request_get (self : ACGalaxyAPIClient.t) (endpoint : string)
    (params : option (list (string * pyval))) (w w' : World)
    (status_code : Z) (json : option pyval) (text : string) :
  send "GET" (base_url self +:+ endpoint) params (timeout self) w
  = (Response status_code json text, w') ->
  _make_request self "GET" endpoint params w
  = (from_http_response status_code (decoded_body json text), w').
Proof.
  intros Hsend. unfold _make_request.
  change (String.eqb (upper "GET") "GET") with true. cbv iota.
  rewrite Hsend. reflexivity.
Qed.

(** C1, as the code has it: for every reply that a GET or a POST
    receives, status 200 gives Success wrapping the decoded body, and
    every other status, the other 2xx codes among them, gives Failure
    that carries the status and whose message is the table text for the
    status, then ": ", then the body as [str] renders it. *)
Theorem make_request_reply (self : ACGalaxyAPIClient.t) (method endpoint : string)
    (params : option (list (string * pyval))) (w w' : World)
    (status_code : Z) (json : option pyval) (text : string) :
  upper method = "GET" \/ upper method = "POST" ->
  send (upper method) (base_url self +:+ endpoint) params (timeout self) w
  = (Response status_code json text, w') ->
  _make_request self method endpoint params w
  = (if status_code =? 200
     then success_response (Raw (decoded_body json text)) "请求成功"
     else error_response
            (match status_code with
             | 400 => "请求参数错误"
             | 404 => "资源不存在"
             | 500 => "服务器内部错误"
             | 502 => "网关错误"
             | 503 => "服务不可用"
             | 504 => "网关超时"
             | _ => "HTTP错误 " +:+ pretty status_code
             end +:+ ": " +:+ str (decoded_body json text))
            status_code,
     w').
Proof.
  intros Hmethod Hsend. unfold _make_request.
  rewrite <- get_error_message_table.
  destruct Hmethod as [Hm|Hm]; rewrite Hm in *; cbn [String.eqb Ascii.eqb Bool.eqb];
    rewrite Hsend; reflexivity.
Qed.

(** A reply is a Success exactly when its status is 200. *)
Lemma from_http_response_success {T} (status_code : Z) (response_data : pyval) :
  success (from_http_response (T := T) status_code response_data) = true
  <-> status_code = 200.
Proof.
  unfold from_http_response. destruct (Z.eqb_spec status_code 200); cbn; split; intros; congruence.
Qed.

End HttpReply.

Lemma make_request_reply_witness :
  ACGalaxyAPIClient._make_request (H := Concrete.builtins) (H0 := Concrete.scripted)
    Concrete.client "GET" "/list" None [Response 404 (Some (VDict [])) "{}"]
  = (APIResponse.error_response "资源不存在: {}" 404, []).
Proof.
  apply (make_request_reply (H := Concrete.builtins) (H0 := Concrete.scripted)
           Concrete.client "GET" "/list" None
           [Response 404 (Some (VDict [])) "{}"] [] 404 (Some (VDict [])) "{}").
  - left. reflexivity.
  - reflexivity.
Defined.

(** C1 as stated fails: status 201 is in the 2xx range and the reply is
    not the Success that wraps the body. *)
Lemma make_request_201_not_success :
  fst (ACGalaxyAPIClient._make_request (H := Concrete.builtins) (H0 := Concrete.scripted)
         Concrete.client "GET" "/list" None [Response 201 (Some (VDict [])) "{}"])
  <> APIResponse.success_response (APIResponse.Raw (VDict [])) "请求成功".
Proof. vm_compute. discriminate. Qed.

Example make_request_201 :
  fst (ACGalaxyAPIClient._make_request (H := Concrete.builtins) (H0 := Concrete.scripted)
         Concrete.client "GET" "/list" None [Response 201 (Some (VDict [])) "{}"])
  = APIResponse.error_response "HTTP错误 201: {}" 201.
Proof. vm_compute. reflexivity. Qed.

(** ** The query parameters of the collection request *)

Section ListParams.
Import APIResponse ACGalaxyAPIClient.

Lemma assoc_setitem (key key' : string) (v : pyval) (d : list (string * pyval)) :
  assoc key' (setitem key v d) = if String.eqb key key' then Some v else assoc key' d.
Proof.
  induction d as [|[k x] d IH]; cbn.
  - reflexivity.
  - destruct (String.eqb_spec k key) as [->|Hk]; cbn.
    + destruct (String.eqb_spec key key'); reflexivity.
    + rewrite IH. destruct (String.eqb_spec k key') as [->|Hk'].
      * destruct (String.eqb_spec key key'); [congruence|reflexivity].
      * reflexivity.
Qed.

Lemma assoc_put (name name' : string) (value : option pyval)
    (params : list (string * pyval)) :
  assoc name' (put name value params)
  = if String.eqb name name' && non_empty value then value else assoc name' params.
Proof.
  unfold put, non_empty. destruct value as [x|].
  - destruct (truthy x).
    + rewrite assoc_setitem. destruct (String.eqb name name'); reflexivity.
    + rewrite andb_false_r. reflexivity.
  - rewrite andb_false_r. reflexivity.
Qed.

Lemma acg_list_params_puts (city_id : Z) (city_name key order : option string)
    (page count : option Z) :
  acg_list_params city_id city_name key order page count
  = put "count" (VInt <$> count)
      (put "page" (VInt <$> page)
         (put "order" (VStr <$> order)
            (put "key" (VStr <$> key)
               (put "city_name" (VStr <$> city_name) [("city_id", VInt city_id)])))).
Proof.
  destruct city_name, key, order, page, count; reflexivity.
Qed.

(** The value sent under each name: [city_id] always, every other
    argument when it is non-empty, and nothing under any other name. *)
Lemma acg_list_params_lookup (city_id : Z) (city_name key order : option string)
    (page count : option Z) (name : string) :
  assoc name (acg_list_params city_id city_name key order page count)
  = if String.eqb name "city_id" then Some (VInt city_id)
    else if non_empty (supplied city_id city_name key order page count name)
         then supplied city_id city_name key order page count name
         else None.
Proof.
  rewrite acg_list_params_puts, !assoc_put. unfold supplied. cbn [assoc].
  rewrite !(String.eqb_sym name).
  destruct (String.eqb_spec "city_id" name) as [<-|_].
  { cbn [String.eqb Ascii.eqb Bool.eqb andb]. reflexivity. }
  destruct (String.eqb_spec "city_name" name) as [<-|_].
  { cbn [String.eqb Ascii.eqb Bool.eqb andb].
    destruct (non_empty (VStr <$> city_name)); reflexivity. }
  destruct (String.eqb_spec "key" name) as [<-|_].
  { cbn [String.eqb Ascii.eqb Bool.eqb andb].
    destruct (non_empty (VStr <$> key)); reflexivity. }
  destruct (String.eqb_spec "order" name) as [<-|_].
  { cbn [String.eqb Ascii.eqb Bool.eqb andb].
    destruct (non_empty (VStr <$> order)); reflexivity. }
  destruct (String.eqb_spec "page" name) as [<-|_].
  { cbn [String.eqb Ascii.eqb Bool.eqb andb].
    destruct (non_empty (VInt <$> page)); reflexivity. }
  destruct (String.eqb_spec "count" name) as [<-|_].
  { cbn [andb]. destruct (non_empty (VInt <$> count)); reflexivity. }
  reflexivity.
Qed.

Context `{Builtins}.

(** The one request [get_acg_list] makes: a GET of [/list] with exactly
    [acg_list_params] as its parameters. *)
Lemma get_acg_list_request `{T : Transport} (self : ACGalaxyAPIClient.t) (city_id : Z)
    (city_name key order : option string) (page count : option Z)
    (log : list request) (w : @World T) :
  fst (snd (get_acg_list (H0 := recording T) self city_id city_name key order page count
              (log, w)))
  = log ++ [("GET", base_url self +:+ "/list",
             Some (acg_list_params city_id city_name key order page count),
             timeout self)].
Proof.
  unfold get_acg_list, _make_request.
  change (String.eqb (upper "GET") "GET") with true. cbv iota. cbn.
  destruct (send _ _ _ _ w) as [o w']. reflexivity.
Qed.

(** C6, as the code has it: [get_acg_list] makes one request, a GET of
    the collection endpoint, and among its parameters [city_id] is always
    present, also when it is 0, with the value given; each of city_name,
    key, order, page and count is present exactly when the value supplied
    is non-empty, with that value; and there is no other parameter. *)
Theorem acg_list_params_exact `{T : Transport} (self : ACGalaxyAPIClient.t) (city_id : Z)
    (city_name key order : option string) (page count : option Z)
    (log : list request) (w : @World T) :
  exists params : list (string * pyval),
    fst (snd (get_acg_list (H0 := recording T) self city_id city_name key order page count
                (log, w)))
    = log ++ [("GET", base_url self +:+ "/list", Some params, timeout self)] /\
    forall name,
      (is_Some (assoc name params)
       <-> name = "city_id" \/
           non_empty (supplied city_id city_name key order page count name) = true) /\
      (forall v, assoc name params = Some v ->
                 supplied city_id city_name key order page count name = Some v).
Proof.
  exists (acg_list_params city_id city_name key order page count).
  split; [apply get_acg_list_request|]. intros name.
  rewrite acg_list_params_lookup.
  destruct (String.eqb_spec name "city_id") as [->|Hne].
  - split.
    + split; [intros _; left; reflexivity|intros _; eexists; reflexivity].
    + intros v [= <-]. reflexivity.
  - destruct (non_empty (supplied city_id city_name key order page count name)) eqn:Hs.
    + split.
      * split; [intros _; right; reflexivity|].
        intros _. unfold non_empty in Hs.
        destruct (supplied city_id city_name key order page count name);
          [eexists; reflexivity|discriminate].
      * intros v Hv. exact Hv.
    + split.
      * split; [intros [v Hv]; discriminate|intros [Heq|Hf]; [contradiction|discriminate]].
      * intros v Hv. discriminate.
Qed.

End ListParams.

(** C6 as stated fails: with every argument empty ([city_id] left at 0)
    the request still carries the parameter [city_id]. *)
Lemma acg_list_params_city_id_zero :
  non_empty (supplied 0 None None None None None "city_id") = false /\
  fst (snd (ACGalaxyAPIClient.get_acg_list
              (H := Concrete.builtins) (H0 := recording Concrete.scripted)
              Concrete.client 0 None None None None None ([], [])))
  = [("GET", "https://acg.s1f.ren/list", Some [("city_id", VInt 0)], 30)].
Proof. split; reflexivity. Qed.

Example city_calendar_params :
  ACGalaxyAPIClient.acg_list_params 0 (Some "Shanghai") None (Some "time") (Some 0) (Some 10)
  = [("city_id", VInt 0); ("city_name", VStr "Shanghai"); ("order", VStr "time");
     ("count", VInt 10)].
Proof. reflexivity. Qed.

(** ** The cache *)

Section Cache.
Context {V : Type}.
Import ACGalaxyPlugin.

Lemma Qltb_lt (x y : Q) : (x < y)%Q -> Qltb x y = true.
Proof.
  intros Hlt. unfold Qltb. destruct (Qle_bool y x) eqn:Hle; [|reflexivity].
  apply Qle_bool_iff in Hle. exfalso. exact (Qlt_not_le _ _ Hlt Hle).
Qed.

Lemma Qltb_ge (x y : Q) : (y <= x)%Q -> Qltb x y = false.
Proof.
  intros Hle. unfold Qltb. apply Qle_bool_iff in Hle. rewrite Hle. reflexivity.
Qed.

(** A read inside the expiry window returns the stored value and leaves
    the plugin state as it is. *)
Lemma get_cached_fresh (self : t V) (key : string) (data : V) (timestamp now : Q) :
  cache self !! key = Some (data, timestamp) ->
  (now - timestamp < cache_expire_time self)%Q ->
  get_cached_data self key now = (Some data, self).
Proof.
  intros Hk Hlt. unfold get_cached_data. rewrite Hk, (Qltb_lt _ _ Hlt). reflexivity.
Qed.

(** A read at or past the expiry window reports nothing and deletes the
    entry. *)
Lemma get_cached_stale (self : t V) (key : string) (data : V) (timestamp now : Q) :
  cache self !! key = Some (data, timestamp) ->
  (cache_expire_time self <= now - timestamp)%Q ->
  get_cached_data self key now
  = (None, mk (delete key (cache self)) (cache_expire_time self)).
Proof.
  intros Hk Hle. unfold get_cached_data. rewrite Hk, (Qltb_ge _ _ Hle). reflexivity.
Qed.

(** C5: after [set(k, v)] at time [t_set], a [get(k)] at time [t_get]
    returns [v] while the elapsed time is below the expiry window, in
    particular at once when the window is positive; once the elapsed
    time has reached the window it reports absent and the mapping it
    leaves behind has no entry for [k], every other entry being kept. *)
Theorem cache_set_then_get (self : t V) (k : string) (v : V) (t_set t_get : Q) :
  let stored := set_cached_data self k v t_set in
  ((0 < cache_expire_time self)%Q ->
   get_cached_data stored k t_set = (Some v, stored)) /\
  ((t_get - t_set < cache_expire_time self)%Q ->
   get_cached_data stored k t_get = (Some v, stored)) /\
  ((cache_expire_time self <= t_get - t_set)%Q ->
   fst (get_cached_data stored k t_get) = None /\
   cache (snd (get_cached_data stored k t_get)) !! k = None /\
   cache (snd (get_cached_data stored k t_get)) = delete k (cache self) /\
   forall k', k' <> k ->
     cache (snd (get_cached_data stored k t_get)) !! k' = cache self !! k').
Proof.
  intros stored.
  assert (Hk : cache stored !! k = Some (v, t_set)).
  { unfold stored, set_cached_data. cbn. apply lookup_insert_eq. }
  split; [|split].
  - intros Hpos. apply (get_cached_fresh stored k v t_set t_set Hk).
    unfold stored, set_cached_data. cbn.
    apply (Qle_lt_trans _ 0); [|exact Hpos].
    apply Qle_minus_iff. ring_simplify. apply Qle_refl.
  - intros Hlt. apply (get_cached_fresh stored k v t_set t_get Hk). exact Hlt.
  - intros Hle. rewrite (get_cached_stale stored k v t_set t_get Hk Hle). cbn.
    split; [reflexivity|]. split; [apply lookup_delete_eq|].
    split; [apply delete_insert_eq|].
    intros k' Hne. rewrite lookup_delete_ne by congruence.
    apply lookup_insert_ne. congruence.
Qed.

End Cache.

Lemma cache_set_then_get_witness :
  let stored := ACGalaxyPlugin.set_cached_data empty_plugin "calendar_Shanghai" "v" (inject_Z 1000) in
  ACGalaxyPlugin.get_cached_data stored "calendar_Shanghai" (inject_Z 1000) = (Some "v", stored) /\
  ACGalaxyPlugin.get_cached_data stored "calendar_Shanghai" (inject_Z 2799) = (Some "v", stored) /\
  fst (ACGalaxyPlugin.get_cached_data stored "calendar_Shanghai" (inject_Z 2800)) = None /\
  ACGalaxyPlugin.cache
    (snd (ACGalaxyPlugin.get_cached_data stored "calendar_Shanghai" (inject_Z 2800)))
    !! "calendar_Shanghai" = None.
Proof.
  intros stored. split; [|split].
  - apply (cache_set_then_get empty_plugin "calendar_Shanghai" "v" (inject_Z 1000) (inject_Z 1000)).
    reflexivity.
  - apply (cache_set_then_get empty_plugin "calendar_Shanghai" "v" (inject_Z 1000) (inject_Z 2799)).
    reflexivity.
  - pose proof (cache_set_then_get empty_plugin "calendar_Shanghai" "v"
                  (inject_Z 1000) (inject_Z 2800)) as (_ & _ & Hstale).
    destruct Hstale as (Hnone & Hgone & _); [discriminate|].
    split; [exact Hnone|exact Hgone].
Defined.

(** ** Days until a bucket starts *)

Section DaysUntil.
Context `{Datetime}.
Import TimeGroupedEvents.

Lemma split_first (s : string) :
  exists parts, split s " " = before_first_space s :: parts.
Proof.
  induction s as [|c s [parts IH]]; cbn.
  - eexists. reflexivity.
  - destruct (Ascii.eqb c " ").
    + eexists. reflexivity.
    + rewrite IH. eexists. reflexivity.
Qed.

Lemma before_first_space_no_space (s : string) :
  contains " " s = false -> before_first_space s = s.
Proof.
  induction s as [|c s IH]; cbn; [reflexivity|].
  destruct (Ascii.eqb c " "); cbn; [discriminate|].
  intros Hs. rewrite (IH Hs). reflexivity.
Qed.

(** The date part the code extracts is the text before the first space. *)
Lemma date_part_spec (s : string) :
  (if contains " " s then first (split s " ") else Ok s)
  = Ok (before_first_space s).
Proof.
  destruct (contains " " s) eqn:Hs.
  - destruct (split_first s) as [parts ->]. reflexivity.
  - rewrite (before_first_space_no_space s Hs). reflexivity.
Qed.

Lemma before_first_space_clean (s : string) :
  contains " " (before_first_space s) = false.
Proof.
  induction s as [|c s IH]; cbn; [reflexivity|].
  destruct (Ascii.eqb c " ") eqn:Hc; cbn; [reflexivity|].
  rewrite Hc, IH. reflexivity.
Qed.

Lemma days_try_str (key : string) (now : Z) :
  days_try (VStr key) now
  = match strptime (before_first_space key) "%Y-%m-%d" with
    | Some target_date => Ok (Z.max 0 ((target_date - now) / 86400000000))
    | None => Raise (ValueError "time data does not match format '%Y-%m-%d'")
    end.
Proof.
  unfold days_try. rewrite date_part_spec. reflexivity.
Qed.

(** Whatever the key is, the [try] block yields a number that is not
    negative, or raises. *)
Lemma days_try_nonneg (time_key : pyval) (now days : Z) :
  days_try time_key now = Ok days -> 0 <= days.
Proof.
  destruct time_key as [|b|z|s|l|d]; cbn; try discriminate.
  - fold (days_try (VStr s) now). rewrite days_try_str.
    destruct (strptime _ _); [|discriminate]. intros [= <-]. lia.
  - destruct (existsb _ l); discriminate.
  - destruct (assoc " " d); discriminate.
Qed.

(** C4: [get_days_until_start] is a total function of the key and the
    clock, so it never raises.  For the ongoing marker it is 0; for any
    other key it parses the text before the first space (the whole key
    when there is none) with the format year-month-day and returns the
    floor of (target - now) in days, or 0 when that is negative; when
    the text does not parse it is 0.  The result is never negative. *)
Theorem get_days_until_start_spec (self : TimeGroupedEvents.t) (key : string) (now : Z) :
  get_days_until_start self (VStr key) now
  = (if String.eqb key "进行中" then 0
     else
       match strptime (before_first_space key) "%Y-%m-%d" with
       | Some target_date => Z.max 0 ((target_date - now) / 86400000000)
       | None => 0
       end)
  /\ 0 <= get_days_until_start self (VStr key) now.
Proof.
  unfold get_days_until_start, eq_str, ongoing_key.
  rewrite days_try_str.
  destruct (String.eqb key "进行中"); [split; [reflexivity|lia]|].
  destruct (strptime _ _); split; try reflexivity; lia.
Qed.

(** The same holds of a key that is not a string: the result is 0. *)
Lemma get_days_until_start_not_str (self : TimeGroupedEvents.t) (time_key : pyval) (now : Z) :
  (forall s, time_key <> VStr s) ->
  get_days_until_start self time_key now = 0.
Proof.
  intros Hns. unfold get_days_until_start.
  destruct time_key as [|b|z|s|l|d]; cbn; try reflexivity.
  - exfalso. exact (Hns s eq_refl).
  - destruct (existsb _ l); reflexivity.
  - destruct (assoc " " d); reflexivity.
Qed.

Lemma get_days_until_start_nonneg (self : TimeGroupedEvents.t) (time_key : pyval) (now : Z) :
  0 <= get_days_until_start self time_key now.
Proof.
  unfold get_days_until_start. destruct (eq_str time_key ongoing_key); [lia|].
  destruct (days_try time_key now) as [days|e] eqn:Hd; [|lia].
  exact (days_try_nonneg time_key now days Hd).
Qed.

(** The module-level helper does the same without the ongoing marker. *)
Lemma calculate_days_until_spec (date_str : string) (now : Z) :
  calculate_days_until (VStr date_str) now
  = match strptime (before_first_space date_str) "%Y-%m-%d" with
    | Some target_date => Z.max 0 ((target_date - now) / 86400000000)
    | None => 0
    end
  /\ 0 <= calculate_days_until (VStr date_str) now.
Proof.
  unfold calculate_days_until. rewrite days_try_str.
  destruct (strptime _ _); split; try reflexivity; lia.
Qed.

End DaysUntil.

Example days_until_future :
  TimeGroupedEvents.get_days_until_start (H := Concrete.datetime) no_groups
    (VStr "2030-05-03 10:00:00") noon_2030_05_01 = 1.
Proof. vm_compute. reflexivity. Qed.

Example days_until_same_day :
  TimeGroupedEvents.get_days_until_start (H := Concrete.datetime) no_groups
    (VStr "2030-05-01") noon_2030_05_01 = 0.
Proof. vm_compute. reflexivity. Qed.

Example days_until_past :
  TimeGroupedEvents.get_days_until_start (H := Concrete.datetime) no_groups
    (VStr "2029-12-31") noon_2030_05_01 = 0.
Proof. vm_compute. reflexivity. Qed.

Example days_until_ongoing :
  TimeGroupedEvents.get_days_until_start (H := Concrete.datetime) no_groups
    (VStr "进行中") noon_2030_05_01 = 0.
Proof. vm_compute. reflexivity. Qed.

Example days_until_malformed :
  TimeGroupedEvents.get_days_until_start (H := Concrete.datetime) no_groups
    (VStr "2030-02-30") noon_2030_05_01 = 0 /\
  TimeGroupedEvents.get_days_until_start (H := Concrete.datetime) no_groups
    (VStr "next week") noon_2030_05_01 = 0 /\
  TimeGroupedEvents.get_days_until_start (H := Concrete.datetime) no_groups
    (VStr "") noon_2030_05_01 = 0 /\
  TimeGroupedEvents.get_days_until_start (H := Concrete.datetime) no_groups
    VNone noon_2030_05_01 = 0.
Proof. vm_compute. repeat split. Qed.

Example days_until_next_year :
  TimeGroupedEvents.get_days_until_start (H := Concrete.datetime) no_groups
    (VStr "2031-5-1") noon_2030_05_01 = 364.
Proof. vm_compute. reflexivity. Qed.

(** ** Grouping by time *)

Section Grouping.
Import TimeGroupedEvents.

Lemma coversb_covers (e : ACGEvent.t) (now : Q) :
  coversb e now = true <-> covers e now.
Proof.
  unfold coversb, covers. rewrite andb_true_iff, !Qle_bool_iff. reflexivity.
Qed.

Lemma is_ongoing_typed (e : ACGEvent.t) (now : Q) :
  event_typed e -> ACGEvent.is_ongoing e now = Ok (coversb e now).
Proof.
  intros (s & a & b & Hs & Ha & Hb).
  unfold ACGEvent.is_ongoing, ACGEvent.le_float, ACGEvent.float_le, coversb.
  rewrite Ha, Hb. cbn.
  destruct (Qle_bool (inject_Z a) now); reflexivity.
Qed.

Lemma time_key_typed (e : ACGEvent.t) (now : Q) :
  event_typed e -> time_key e now = Ok (VStr (bucket_of now e)).
Proof.
  intros Ht. unfold time_key. rewrite (is_ongoing_typed e now Ht). cbn.
  unfold bucket_of, ongoing_key.
  destruct Ht as (s & a & b & Hs & Ha & Hb). rewrite Hs.
  destruct (coversb e now); reflexivity.
Qed.

Lemma key_eqb_str (s s' : string) : key_eqb (VStr s) (VStr s') = String.eqb s s'.
Proof. reflexivity. Qed.

Lemma members_app (now : Q) (s : string) (l l' : list ACGEvent.t) :
  members now s (l ++ l') = members now s l ++ members now s l'.
Proof. apply List.filter_app. Qed.

Lemma members_one (now : Q) (s : string) (e : ACGEvent.t) :
  members now s [e] = if String.eqb (bucket_of now e) s then [e] else [].
Proof. reflexivity. Qed.

Lemma members_nil_iff (now : Q) (s : string) (l : list ACGEvent.t) :
  members now s l = [] <-> forall e, In e l -> bucket_of now e <> s.
Proof.
  unfold members. induction l as [|x l IH]; cbn.
  - split; [intros _ e []|reflexivity].
  - destruct (String.eqb_spec (bucket_of now x) s) as [Heq|Hne].
    + split; [discriminate|]. intros Hall. exfalso. exact (Hall x (or_introl eq_refl) Heq).
    + rewrite IH. split.
      * intros Hall e [<-|Hin]; [exact Hne|exact (Hall e Hin)].
      * intros Hall e Hin. exact (Hall e (or_intror Hin)).
Qed.

Lemma key_not_elsewhere {A B} (d1 d2 : list (A * B)) (k : A) (v v' : B) :
  List.NoDup (map fst (d1 ++ (k, v) :: d2)) -> In (k, v') (d1 ++ d2) -> False.
Proof.
  rewrite map_app. cbn. intros Hnd Hin.
  apply List.NoDup_remove_2 in Hnd. apply Hnd.
  rewrite <- map_app. exact (in_map fst _ _ Hin).
Qed.

(** Where [append_to] puts the event: at the end of the bucket of its
    key when there is one, else in a new bucket after the others. *)
Lemma append_to_shape (b : string) (e : ACGEvent.t) (d : list (pyval * list ACGEvent.t)) :
  (forall k es, In (k, es) d -> exists s, k = VStr s) ->
  (exists d1 es d2, d = d1 ++ (VStr b, es) :: d2 /\
     append_to (VStr b) e d = d1 ++ (VStr b, es ++ [e]) :: d2) \/
  (~ In (VStr b) (map fst d) /\ append_to (VStr b) e d = d ++ [(VStr b, [e])]).
Proof.
  induction d as [|[k es] d IH]; intros Hkeys; cbn.
  - right. split; [tauto|reflexivity].
  - destruct (Hkeys k es (or_introl eq_refl)) as [s ->].
    rewrite key_eqb_str. destruct (String.eqb_spec s b) as [->|Hne].
    + left. exists [], es, d. split; reflexivity.
    + destruct IH as [(d1 & es' & d2 & -> & Happ)|(Hnin & Happ)].
      * intros k' es'' Hin'. exact (Hkeys k' es'' (or_intror Hin')).
      * left. exists ((VStr s, es) :: d1), es', d2. rewrite Happ. split; reflexivity.
      * right. split; [|rewrite Happ; reflexivity].
        intros [Heq|Hin]; [congruence|exact (Hnin Hin)].
Qed.

(** One step of the loop keeps the buckets in that shape. *)
Lemma append_to_grouped (now : Q) (seen : list ACGEvent.t) (e : ACGEvent.t)
    (d : list (pyval * list ACGEvent.t)) :
  grouped now seen d ->
  grouped now (seen ++ [e]) (append_to (VStr (bucket_of now e)) e d).
Proof.
  set (b := bucket_of now e).
  intros (Hnd & Hmem & Hcov).
  destruct (append_to_shape b e d) as [(d1 & es & d2 & -> & ->)|(Hnin & ->)].
  { intros k es Hin. destruct (Hmem k es Hin) as (s & -> & _). exists s. reflexivity. }
  - (* the bucket exists: the event goes to its end *)
    assert (Hother : forall k es', In (k, es') (d1 ++ d2) ->
              exists s, k = VStr s /\ s <> b /\ es' = members now s seen /\ es' <> []).
    { intros k es' Hin'.
      destruct (Hmem k es') as (s & -> & -> & Hne).
      { apply in_app_or in Hin'. apply in_or_app.
        destruct Hin' as [Hl|Hr]; [left; exact Hl|right; right; exact Hr]. }
      exists s. repeat split; try assumption.
      intros ->. exact (key_not_elsewhere d1 d2 (VStr b) es _ Hnd Hin'). }
    split; [|split].
    + rewrite map_app in *. cbn in *. exact Hnd.
    + intros k es' Hin'.
      assert (Hcase : (k, es') = (VStr b, es ++ [e]) \/ In (k, es') (d1 ++ d2)).
      { apply in_app_or in Hin'. destruct Hin' as [Hl|[Heq|Hr]].
        - right. apply in_or_app. left. exact Hl.
        - left. symmetry. exact Heq.
        - right. apply in_or_app. right. exact Hr. }
      destruct Hcase as [[= -> ->]|Hin''].
      * destruct (Hmem (VStr b) es) as (s & [= <-] & -> & _).
        { apply in_or_app. right. left. reflexivity. }
        exists b. split; [reflexivity|]. rewrite members_app, members_one.
        fold b. rewrite String.eqb_refl. split; [reflexivity|].
        intros Hnil. apply app_eq_nil in Hnil. destruct Hnil as [_ Hnil]. discriminate.
      * destruct (Hother k es' Hin'') as (s & -> & Hsb & -> & Hne).
        exists s. split; [reflexivity|]. rewrite members_app, members_one.
        fold b. destruct (String.eqb_spec b s) as [Heq|_]; [congruence|].
        rewrite app_nil_r. split; [reflexivity|exact Hne].
    + intros x Hx. apply in_app_or in Hx. rewrite map_app in *. cbn in *.
      destruct Hx as [Hx|[<-|[]]]; [exact (Hcov x Hx)|].
      apply in_or_app. right. left. reflexivity.
  - (* no bucket yet: a new one at the end *)
    split; [|split].
    + rewrite map_app. cbn.
      apply (Permutation_NoDup (l := VStr b :: map fst d)).
      * apply Permutation_cons_append.
      * apply List.NoDup_cons; assumption.
    + intros k es' Hin'. apply in_app_or in Hin'. destruct Hin' as [Hin'|[Heq|[]]].
      * destruct (Hmem k es' Hin') as (s & -> & -> & Hne).
        exists s. split; [reflexivity|]. rewrite members_app, members_one.
        fold b. destruct (String.eqb_spec b s) as [<-|_].
        -- exfalso. apply Hnin. exact (in_map fst _ _ Hin').
        -- rewrite app_nil_r. split; [reflexivity|exact Hne].
      * injection Heq as <- <-. exists b. split; [reflexivity|].
        rewrite members_app, members_one. fold b. rewrite String.eqb_refl.
        split; [|discriminate].
        replace (members now b seen) with (@nil ACGEvent.t); [reflexivity|].
        symmetry. apply members_nil_iff. intros x Hx Hbx.
        apply Hnin. rewrite <- Hbx. exact (Hcov x Hx).
    + intros x Hx. rewrite map_app. apply in_or_app. apply in_app_or in Hx.
      destruct Hx as [Hx|[<-|[]]]; [left; exact (Hcov x Hx)|right; left; reflexivity].
Qed.

Lemma append_to_concat (k : pyval) (e : ACGEvent.t) (d : list (pyval * list ACGEvent.t)) :
  Permutation (concat (map snd (append_to k e d))) (concat (map snd d) ++ [e]).
Proof.
  induction d as [|[k' es] d IH]; cbn.
  - reflexivity.
  - destruct (key_eqb k' k); cbn.
    + rewrite <- !app_assoc. apply Permutation_app_head. apply Permutation_app_comm.
    + rewrite <- app_assoc. apply Permutation_app_head. exact IH.
Qed.

(** The loop, started on the buckets of the events seen so far, ends on
    the buckets of all the events. *)
Lemma from_events_loop_grouped (now : Q) (rest seen : list ACGEvent.t) (i : nat)
    (d : list (pyval * list ACGEvent.t)) :
  Forall event_typed rest ->
  grouped now seen d ->
  Permutation (concat (map snd d)) seen ->
  exists d',
    from_events_loop (fun _ => now) i rest d = Ok d' /\
    grouped now (seen ++ rest) d' /\
    Permutation (concat (map snd d')) (seen ++ rest).
Proof.
  revert seen i d. induction rest as [|e rest IH]; intros seen i d Htyped Hg Hperm.
  - exists d. rewrite app_nil_r. cbn. auto.
  - inversion Htyped as [|? ? He Hrest]; subst. cbn.
    rewrite (time_key_typed e now He). cbn.
    destruct (IH (seen ++ [e]) (S i) (append_to (VStr (bucket_of now e)) e d) Hrest)
      as (d' & Hrun & Hg' & Hperm').
    + apply append_to_grouped. exact Hg.
    + rewrite append_to_concat. apply Permutation_app_tail. exact Hperm.
    + exists d'. rewrite <- app_assoc in Hg', Hperm'. auto.
Qed.

Lemma members_in (now : Q) (s : string) (events : list ACGEvent.t) (e : ACGEvent.t) :
  In e (members now s events) <-> In e events /\ bucket_of now e = s.
Proof.
  unfold members. rewrite List.filter_In.
  destruct (String.eqb_spec (bucket_of now e) s); intuition congruence.
Qed.

Lemma bucket_of_covered (now : Q) (e : ACGEvent.t) :
  covers e now -> bucket_of now e = "进行中".
Proof.
  intros Hc. unfold bucket_of. apply coversb_covers in Hc. rewrite Hc. reflexivity.
Qed.

Lemma bucket_of_other (now : Q) (e : ACGEvent.t) :
  event_typed e -> ~ covers e now -> VStr (bucket_of now e) = ACGEvent.start_time e.
Proof.
  intros (s & a & b & Hs & _) Hc. unfold bucket_of.
  destruct (coversb e now) eqn:Hb.
  - exfalso. apply Hc, coversb_covers. exact Hb.
  - rewrite Hs. reflexivity.
Qed.

(** C3: with the clock at [now], grouping a list of events gives buckets
    such that an event whose interval from [start_unix] to [end_unix],
    ends included, contains [now] is in the bucket of the ongoing marker
    whatever its [start_time]; every other event is in the bucket keyed
    by its [start_time]; each bucket lists its events in the order of the
    input; no key occurs twice and no event is in two buckets; and the
    buckets together hold exactly the events of the input. *)
Theorem from_events_partition (now : Q) (events : list ACGEvent.t) :
  Forall event_typed events ->
  exists groups,
    from_events now events = Ok (TimeGroupedEvents.mk groups) /\
    (forall e, In e events -> covers e now ->
       exists es, In (VStr "进行中", es) groups /\ In e es) /\
    (forall e, In e events -> ~ covers e now ->
       exists es, In (ACGEvent.start_time e, es) groups /\ In e es) /\
    (forall k es, In (k, es) groups ->
       exists s, k = VStr s /\ es = members now s events) /\
    List.NoDup (map fst groups) /\
    (forall e k1 es1 k2 es2,
       In (k1, es1) groups -> In (k2, es2) groups -> In e es1 -> In e es2 ->
       k1 = k2 /\ es1 = es2) /\
    Permutation (concat (map snd groups)) events.
Proof.
  intros Htyped.
  destruct (from_events_loop_grouped now events [] 0 [] Htyped) as (d & Hrun & Hg & Hperm).
  { split; [constructor|]. split; [intros k es []|intros e []]. }
  { reflexivity. }
  cbn in Hg, Hperm. destruct Hg as (Hnd & Hmem & Hcov).
  assert (Hplace : forall e, In e events ->
            exists es, In (VStr (bucket_of now e), es) d /\ In e es).
  { intros e He. specialize (Hcov e He). apply in_map_iff in Hcov.
    destruct Hcov as ([k es] & Hk & Hin). cbn in Hk. subst k.
    exists es. split; [exact Hin|].
    destruct (Hmem _ _ Hin) as (s & [= <-] & -> & _).
    apply members_in. split; [exact He|reflexivity]. }
  exists d. split; [|split; [|split; [|split; [|split; [|split]]]]].
  - unfold from_events, from_events_clock. rewrite Hrun. reflexivity.
  - intros e He Hc. rewrite <- (bucket_of_covered now e Hc). exact (Hplace e He).
  - intros e He Hc. rewrite <- (bucket_of_other now e); [exact (Hplace e He)| |exact Hc].
    rewrite List.Forall_forall in Htyped. exact (Htyped e He).
  - intros k es Hin. destruct (Hmem k es Hin) as (s & -> & -> & _).
    exists s. split; reflexivity.
  - exact Hnd.
  - intros e k1 es1 k2 es2 H1 H2 He1 He2.
    destruct (Hmem k1 es1 H1) as (s1 & -> & -> & _).
    destruct (Hmem k2 es2 H2) as (s2 & -> & -> & _).
    apply members_in in He1. apply members_in in He2.
    destruct He1 as [_ <-]. destruct He2 as [_ <-]. split; reflexivity.
  - exact Hperm.
Qed.

(** The module-level helper runs the same loop. *)
Lemma group_events_by_time_from_events (now : Q) (events : list ACGEvent.t) :
  from_events now events
  = match group_events_by_time now events with
    | Ok d => Ok (TimeGroupedEvents.mk d)
    | Raise e => Raise e
    end.
Proof. reflexivity. Qed.

End Grouping.

Lemma calendar_events_typed : Forall event_typed calendar_events.
Proof. repeat constructor; do 3 eexists; repeat split. Qed.

Example from_events_run :
  TimeGroupedEvents.from_events (inject_Z 1903900000) calendar_events
  = Ok (TimeGroupedEvents.mk
          [ (VStr "2030-06-01",
             [ timed_event "A" "2030-06-01" 1906502400 1906588799;
               timed_event "C" "2030-06-01" 1906502400 1906675199 ]);
            (VStr "进行中",
             [ timed_event "B" "2030-05-01" 1903824000 1904083199;
               timed_event "D" "2030-04-30" 1903737600 1903900000 ]) ]).
Proof. vm_compute. reflexivity. Qed.

Lemma from_events_partition_witness :
  exists groups,
    TimeGroupedEvents.from_events (inject_Z 1903900000) calendar_events
    = Ok (TimeGroupedEvents.mk groups) /\
    Permutation (concat (map snd groups)) calendar_events.
Proof.
  destruct (from_events_partition (inject_Z 1903900000) calendar_events calendar_events_typed)
    as (groups & Hrun & _ & _ & _ & _ & _ & Hperm).
  exists groups. split; [exact Hrun|exact Hperm].
Defined.

(** A field of the wrong type makes the comparison, and so the grouping,
    raise. *)
Example from_events_untyped :
  TimeGroupedEvents.from_events (inject_Z 1903900000)
    [ ACGEvent.mk "E" (VStr "") (VStr "2030-06-01") (VStr "") VNone (VInt 0)
        (VStr "") (VStr "") (VInt 0) (VInt 0) (VInt 0) (VInt 0) VNone VNone VNone ]
  = Raise (TypeError "'<=' not supported between instances of 'NoneType' and 'float'").
Proof. vm_compute. reflexivity. Qed.

(** ** Event detail *)

Section EventDetail.
Context `{Builtins} `{Transport}.
Import APIResponse ACGalaxyAPIClient.

(** HTTP 200 with a body that is a non-empty object whose ["data"] is
    missing, null or otherwise falsy: the logical 404. *)
Lemma get_acg_info_no_data (self : ACGalaxyAPIClient.t) (acg_id : string) (w w' : World)
    (d : list (string * pyval)) (text : string) :
  send "GET" (base_url self +:+ "/detail/" +:+ acg_id) None (timeout self) w
  = (Response 200 (Some (VDict d)) text, w') ->
  d <> [] ->
  truthy (match assoc "data" d with Some x => x | None => VNone end) = false ->
  get_acg_info self acg_id w = (error_response "漫展信息不存在" 404, w').
Proof.
  intros Hsend Hd Hdata. unfold get_acg_info.
  rewrite (make_request_get self _ None w w' 200 (Some (VDict d)) text Hsend).
  cbn. destruct d as [|kv d]; [contradiction|]. cbn [andb].
  cbn in Hdata |- *. rewrite Hdata. reflexivity.
Qed.

(** HTTP 200 with a body that is not JSON: the text is wrapped under
    ["error"], there is no ["data"], and the result is the logical 404. *)
Lemma get_acg_info_not_json (self : ACGalaxyAPIClient.t) (acg_id : string) (w w' : World)
    (text : string) :
  send "GET" (base_url self +:+ "/detail/" +:+ acg_id) None (timeout self) w
  = (Response 200 None text, w') ->
  get_acg_info self acg_id w = (error_response "漫展信息不存在" 404, w').
Proof.
  intros Hsend. unfold get_acg_info.
  rewrite (make_request_get self _ None w w' 200 None text Hsend). reflexivity.
Qed.

(** HTTP 200 with a falsy body (an empty object or list, null, zero,
    false, an empty string): the transport's Success is returned as it
    is, with the body for its data. *)
Lemma get_acg_info_falsy_body (self : ACGalaxyAPIClient.t) (acg_id : string) (w w' : World)
    (body : pyval) (text : string) :
  send "GET" (base_url self +:+ "/detail/" +:+ acg_id) None (timeout self) w
  = (Response 200 (Some body) text, w') ->
  truthy body = false ->
  get_acg_info self acg_id w = (success_response (Raw body) "请求成功", w').
Proof.
  intros Hsend Hbody. unfold get_acg_info.
  rewrite (make_request_get self _ None w w' 200 (Some body) text Hsend).
  cbn. rewrite Hbody. reflexivity.
Qed.

End EventDetail.

(** The claim's own scenario, a body with data null, gives the 404. *)
Example get_acg_info_data_null :
  ACGalaxyAPIClient.get_acg_info (H := Concrete.builtins) (H0 := Concrete.scripted)
    Concrete.client "X1" [Response 200 (Some (VDict [("data", VNone)])) "{}"]
  = (APIResponse.error_response "漫展信息不存在" 404, []).
Proof. vm_compute. reflexivity. Qed.

(** C8 at the failing input: the detail endpoint replies HTTP 200 with
    the empty object, which has no data payload, and [get_acg_info]
    returns a Success whose data is that empty object. *)
Theorem get_acg_info_empty_object :
  ACGalaxyAPIClient.get_acg_info (H := Concrete.builtins) (H0 := Concrete.scripted)
    Concrete.client "X1" [Response 200 (Some (VDict [])) "{}"]
  = (APIResponse.success_response (APIResponse.Raw (VDict [])) "请求成功", []).
Proof. vm_compute. reflexivity. Qed.

(** ** Searching the events of guests *)

Section GuestSearch.
Context `{Builtins} `{Transport}.
Import APIResponse ACGalaxyAPIClient.

Lemma collect_guest_events_settled (self : ACGalaxyAPIClient.t) (guests : list Guest.t)
    (all_events : list event_dict) (w : World) :
  fetches_settled self guests w ->
  collect_guest_events self guests all_events w
  = (Ok (all_events ++ fst (fetched_events self guests w)),
     snd (fetched_events self guests w)).
Proof.
  revert all_events w. induction guests as [|guest rest IH]; intros all_events w Hs.
  - cbn. rewrite app_nil_r. reflexivity.
  - cbn in Hs |- *.
    destruct (get_guest_acg_list self (Guest.id guest) w) as [acg_response w'].
    destruct Hs as [Hobj Hrest].
    destruct (fetched_events self rest w') as [others w''] eqn:Hf.
    destruct (success acg_response) eqn:Hsucc.
    + destruct (Hobj eq_refl) as [o Ho]. rewrite Ho.
      rewrite (IH _ w' Hrest), Hf. cbn. unfold tagged. rewrite app_assoc. reflexivity.
    + rewrite (IH _ w' Hrest), Hf. reflexivity.
Qed.

(** What the code attempts: when the guest search is a Success that
    carries a parsed guest list and the list is empty,
    [search_guest_events] is the Failure "no guest found" with status
    404.  This holds for every network: no per-guest fetch is made (the
    world is the one the guest search left), so what such a fetch would
    have answered plays no part. *)
Lemma search_guest_events_no_guest (self : ACGalaxyAPIClient.t) (guest_name : string)
    (w w1 : World) (guest_response : APIResponse.t GuestListResponse.t)
    (guest_list : GuestListResponse.t) :
  get_guest_list self guest_name w = (guest_response, w1) ->
  success guest_response = true ->
  data guest_response = Obj guest_list ->
  GuestListResponse.data guest_list = [] ->
  search_guest_events self guest_name w
  = (error_response "未找到相关嘉宾信息" 404, w1) /\
  success (fst (search_guest_events self guest_name w)) = false.
Proof.
  intros Hget Hsucc Hdata Hnil.
  assert (Hrun : search_guest_events self guest_name w
                 = (error_response "未找到相关嘉宾信息" 404, w1)).
  { unfold search_guest_events. rewrite Hget, Hsucc. cbn [negb].
    rewrite Hdata, Hnil. reflexivity. }
  rewrite Hrun. split; reflexivity.
Qed.

(** The guest endpoint replying HTTP 200 with an object that lists no
    guest is such a guest search. *)
Lemma get_guest_list_empty (self : ACGalaxyAPIClient.t) (guest_name : string) (w w' : World)
    (d : list (string * pyval)) (text : string) :
  send "GET" (base_url self +:+ "/guests") (Some [("guest_name", VStr guest_name)])
    (timeout self) w
  = (Response 200 (Some (VDict d)) text, w') ->
  d <> [] ->
  assoc "data" d = Some (VList []) \/ assoc "data" d = None ->
  get_guest_list self guest_name w
  = (success_response (Obj (GuestListResponse.mk [])) "获取嘉宾列表成功", w').
Proof.
  intros Hsend Hd Hdata. unfold get_guest_list.
  rewrite (make_request_get self _ _ w w' 200 (Some (VDict d)) text Hsend).
  cbn. destruct d as [|kv d]; [contradiction|]. cbn [andb].
  unfold GuestListResponse.from_dict. cbn [get rbind].
  destruct Hdata as [-> | ->]; reflexivity.
Qed.

(** C2 at the failing inputs: the guest endpoint replies HTTP 200 with a
    falsy body (the empty object or list, null, zero, false, the empty
    string).  [get_guest_list] hands the reply on as a Success carrying
    the raw body, so the guest search succeeds and finds no guest;
    [search_guest_events] then reads [.data] off that body, which raises,
    and the result is the generic Failure with status 500 and the text of
    the AttributeError, not the Failure "no guest found" with status 404.
    No per-guest fetch is made. *)
Theorem search_guest_events_falsy_guest_reply (self : ACGalaxyAPIClient.t)
    (guest_name : string) (w w' : World) (body : pyval) (text : string) :
  send "GET" (base_url self +:+ "/guests") (Some [("guest_name", VStr guest_name)])
    (timeout self) w
  = (Response 200 (Some body) text, w') ->
  truthy body = false ->
  get_guest_list self guest_name w = (success_response (Raw body) "请求成功", w') /\
  search_guest_events self guest_name w
  = (error_response
       ("搜索嘉宾相关漫展失败: '" +:+ type_name body +:+ "' object has no attribute 'data'")
       500, w') /\
  search_guest_events self guest_name w <> (error_response "未找到相关嘉宾信息" 404, w').
Proof.
  intros Hsend Hbody.
  assert (Hget : get_guest_list self guest_name w
                 = (success_response (Raw body) "请求成功", w')).
  { unfold get_guest_list.
    rewrite (make_request_get self _ _ w w' 200 (Some body) text Hsend).
    cbn. rewrite Hbody. reflexivity. }
  assert (Hrun : search_guest_events self guest_name w
                 = (error_response
                      ("搜索嘉宾相关漫展失败: '" +:+ type_name body +:+
                       "' object has no attribute 'data'") 500, w')).
  { unfold search_guest_events. rewrite Hget. reflexivity. }
  split; [exact Hget|]. split; [exact Hrun|].
  rewrite Hrun. intros Heq. inversion Heq.
Qed.

(** Failed fetches are tolerated: when the guest search is a Success
    with at least one guest and every per-guest fetch either fails or is
    a Success carrying the parsed list, [search_guest_events] is a
    Success; its events are those of the guests whose fetch succeeded,
    tagged and in order, a failed fetch contributing nothing, and
    [total_count] is their number. *)
Lemma search_guest_events_tolerates_failures (self : ACGalaxyAPIClient.t)
    (guest_name : string) (w w1 : World)
    (guest_response : APIResponse.t GuestListResponse.t)
    (guest_list : GuestListResponse.t) :
  get_guest_list self guest_name w = (guest_response, w1) ->
  success guest_response = true ->
  data guest_response = Obj guest_list ->
  GuestListResponse.data guest_list <> [] ->
  fetches_settled self (GuestListResponse.data guest_list) w1 ->
  search_guest_events self guest_name w
  = (success_response
       (Obj (ResultData (GuestListResponse.data guest_list)
               (fst (fetched_events self (GuestListResponse.data guest_list) w1))
               (Z.of_nat
                  (length (fst (fetched_events self (GuestListResponse.data guest_list) w1))))))
       "搜索嘉宾相关漫展成功",
     snd (fetched_events self (GuestListResponse.data guest_list) w1)).
Proof.
  intros Hget Hsucc Hdata Hne Hsettled.
  unfold search_guest_events. rewrite Hget, Hsucc. cbn [negb]. rewrite Hdata.
  destruct (GuestListResponse.data guest_list) as [|guest rest] eqn:Hguests;
    [contradiction|].
  rewrite (collect_guest_events_settled self (guest :: rest) [] w1 Hsettled).
  reflexivity.
Qed.

(** When every fetch fails there is no event at all. *)
Lemma fetched_events_all_failed (self : ACGalaxyAPIClient.t) (guests : list Guest.t)
    (w : World) :
  (forall guest_id w0, success (fst (get_guest_acg_list self guest_id w0)) = false) ->
  fst (fetched_events self guests w) = [] /\ fetches_settled self guests w.
Proof.
  intros Hfail. revert w. induction guests as [|guest rest IH]; intros w.
  - split; [reflexivity|exact I].
  - cbn. specialize (Hfail (Guest.id guest) w).
    destruct (get_guest_acg_list self (Guest.id guest) w) as [acg_response w'].
    cbn in Hfail. destruct (IH w') as [Hnil Hs].
    destruct (fetched_events self rest w') as [others w'']. cbn in Hnil. subst others.
    rewrite Hfail. split; [reflexivity|]. split; [congruence|exact Hs].
Qed.

End GuestSearch.

Lemma search_guest_events_falsy_guest_reply_witness :
  ACGalaxyAPIClient.search_guest_events (H := Concrete.builtins) (H0 := Concrete.scripted)
    Concrete.client "NoSuchGuest"
    [ Response 200 (Some (VDict [])) "{}";
      Response 200 (Some (guest_events_body 1 "Aoi" [VDict sample_item])) "" ]
  = (APIResponse.error_response
       "搜索嘉宾相关漫展失败: 'dict' object has no attribute 'data'" 500,
     [ Response 200 (Some (guest_events_body 1 "Aoi" [VDict sample_item])) "" ]).
Proof.
  apply (search_guest_events_falsy_guest_reply
           (H := Concrete.builtins) (H0 := Concrete.scripted)
           Concrete.client "NoSuchGuest"
           [ Response 200 (Some (VDict [])) "{}";
             Response 200 (Some (guest_events_body 1 "Aoi" [VDict sample_item])) "" ]
           [ Response 200 (Some (guest_events_body 1 "Aoi" [VDict sample_item])) "" ]
           (VDict []) "{}");
    reflexivity.
Defined.

(** The guest endpoint lists no guest: the 404. *)
Lemma search_guest_events_no_guest_witness :
  ACGalaxyAPIClient.search_guest_events (H := Concrete.builtins) (H0 := Concrete.scripted)
    Concrete.client "NoSuchGuest" nobody_world
  = (APIResponse.error_response "未找到相关嘉宾信息" 404,
     [ Response 200 (Some (guest_events_body 1 "Aoi" [VDict sample_item])) "" ]).
Proof.
  apply (search_guest_events_no_guest (H := Concrete.builtins) (H0 := Concrete.scripted)
           Concrete.client "NoSuchGuest" nobody_world
           [ Response 200 (Some (guest_events_body 1 "Aoi" [VDict sample_item])) "" ]
           (APIResponse.success_response
              (APIResponse.Obj (GuestListResponse.mk [])) "获取嘉宾列表成功")
           (GuestListResponse.mk []));
    reflexivity.
Defined.

Example search_guest_events_one_failed :
  ACGalaxyAPIClient.search_guest_events (H := Concrete.builtins) (H0 := Concrete.scripted)
    Concrete.client "n" two_guests_world
  = (APIResponse.success_response
       (APIResponse.Obj
          (ACGalaxyAPIClient.ResultData [guest_aoi; guest_rin]
             [ACGalaxyAPIClient.mk_event_dict sample_event guest_rin] 1))
       "搜索嘉宾相关漫展成功",
     []).
Proof.
  rewrite (search_guest_events_tolerates_failures
             (H := Concrete.builtins) (H0 := Concrete.scripted)
             Concrete.client "n" two_guests_world
             [ Response 500 None "Internal Server Error";
               Response 200 (Some (guest_events_body 2 "Rin" [VDict sample_item])) "" ]
             (APIResponse.success_response
                (APIResponse.Obj (GuestListResponse.mk [guest_aoi; guest_rin]))
                "获取嘉宾列表成功")
             (GuestListResponse.mk [guest_aoi; guest_rin])).
  - vm_compute. reflexivity.
  - vm_compute. reflexivity.
  - reflexivity.
  - reflexivity.
  - discriminate.
  - vm_compute. split; [discriminate|]. split; [|exact I].
    intros _. eexists. reflexivity.
Defined.

(** Every fetch fails: still a Success, with no event. *)
Example search_guest_events_all_failed :
  ACGalaxyAPIClient.search_guest_events (H := Concrete.builtins) (H0 := Concrete.scripted)
    Concrete.client "n"
    [ Response 200 (Some (guests_body [guest_item 1 "Aoi"; guest_item 2 "Rin"])) "";
      TimeoutException;
      Response 404 (Some (VDict [("message", VStr "no such guest")])) "" ]
  = (APIResponse.success_response
       (APIResponse.Obj (ACGalaxyAPIClient.ResultData [guest_aoi; guest_rin] [] 0))
       "搜索嘉宾相关漫展成功",
     []).
Proof. vm_compute. reflexivity. Qed.

(** A guest search that is HTTP 200 with a falsy body is passed on as a
    Success with the raw body; reading [.data] off it raises, and the
    search ends in the generic Failure with status 500. *)
Example search_guest_events_raw_guest_list :
  ACGalaxyAPIClient.search_guest_events (H := Concrete.builtins) (H0 := Concrete.scripted)
    Concrete.client "n" [ Response 200 (Some (VDict [])) "" ]
  = (APIResponse.error_response
       "搜索嘉宾相关漫展失败: 'dict' object has no attribute 'data'" 500,
     []).
Proof. vm_compute. reflexivity. Qed.

(** C10 at the failing input: the guest search finds one guest and the
    fetch of that guest's events is answered HTTP 200 with the empty
    object.  [get_guest_acg_list] passes that on as a Success with the
    raw body, reading [.projects] off it raises, and the whole search is
    the generic Failure with status 500, not a Success without that
    guest's events. *)
Theorem search_guest_events_raw_fetch :
  ACGalaxyAPIClient.search_guest_events (H := Concrete.builtins) (H0 := Concrete.scripted)
    Concrete.client "n"
    [ Response 200 (Some (guests_body [guest_item 1 "Aoi"])) "";
      Response 200 (Some (VDict [])) "" ]
  = (APIResponse.error_response
       "搜索嘉宾相关漫展失败: 'dict' object has no attribute 'projects'" 500,
     []).
Proof. vm_compute. reflexivity. Qed.

(** * Further properties of the code *)

(** ** The request function *)

Section Transport.
Context `{Builtins} `{Transport}.
Import APIResponse ACGalaxyAPIClient.

Lemma make_request_get_outcome (self : ACGalaxyAPIClient.t) (endpoint : string)
    (params : option (list (string * pyval))) (w w' : World) (o : outcome) :
  send "GET" (base_url self +:+ endpoint) params (timeout self) w = (o, w') ->
  _make_request self "GET" endpoint params w = (response_of o, w').
Proof.
  intros Hsend. unfold _make_request.
  change (String.eqb (upper "GET") "GET") with true. cbv iota.
  rewrite Hsend. destruct o; reflexivity.
Qed.

(** An exception of the transport never escapes [_make_request]: a
    timeout becomes the Failure with status 408, a refused connection
    the Failure with status 503, and any other exception the Failure
    with status 500 whose message is the exception's text. *)
Theorem make_request_exception (self : ACGalaxyAPIClient.t) (method endpoint : string)
    (params : option (list (string * pyval))) (w w' : World) (o : outcome) :
  upper method = "GET" \/ upper method = "POST" ->
  send (upper method) (base_url self +:+ endpoint) params (timeout self) w = (o, w') ->
  (o = TimeoutException ->
   _make_request self method endpoint params w = (error_response "请求超时" 408, w')) /\
  (o = ConnectError ->
   _make_request self method endpoint params w = (error_response "连接失败" 503, w')) /\
  (forall msg, o = OtherException msg ->
   _make_request self method endpoint params w = (error_response msg 500, w')).
Proof.
  intros Hmethod Hsend. unfold _make_request.
  destruct Hmethod as [Hm|Hm]; rewrite Hm in *; cbn [String.eqb Ascii.eqb Bool.eqb];
    rewrite Hsend; repeat split; intros; subst o; reflexivity.
Qed.

(** A method name in ASCII that is neither GET nor POST in any letter
    case is refused with status 500 and the transport is not used: the
    world stays as it was. *)
Theorem make_request_unsupported (self : ACGalaxyAPIClient.t) (method endpoint : string)
    (params : option (list (string * pyval))) (w : World) :
  isascii method = true ->
  upper method <> "GET" -> upper method <> "POST" ->
  _make_request self method endpoint params w
  = (error_response ("不支持的HTTP方法: " +:+ method) 500, w).
Proof.
  intros _ Hget Hpost. unfold _make_request.
  destruct (String.eqb_spec (upper method) "GET"); [contradiction|].
  destruct (String.eqb_spec (upper method) "POST"); [contradiction|].
  reflexivity.
Qed.

Lemma pass_on_error {T} (msg : string) (code : Z) :
  pass_on (T := T) (error_response msg code) = error_response msg code.
Proof. reflexivity. Qed.

Lemma response_of_failure (o : outcome) :
  success (response_of o) = false ->
  response_of o = error_response (message (response_of o)) (status_code (response_of o)).
Proof.
  destruct o as [c j t| | |msg]; cbn; try reflexivity.
  unfold from_http_response. destruct (c =? 200); [discriminate|reflexivity].
Qed.

(** What an operation does with a transport response that is a Failure:
    it is returned as it is. *)
Lemma failure_passed_on {T} (prefix : string) (o : outcome)
    (parsed : result (APIResponse.t T)) :
  success (response_of o) = false ->
  or_error prefix
    (if success (response_of o) && truthy (raw_data (response_of o))
     then parsed
     else Ok (pass_on (response_of o)))
  = error_response (message (response_of o)) (status_code (response_of o)).
Proof.
  intros Hfail. rewrite Hfail. cbn [andb or_error].
  rewrite (response_of_failure o Hfail) at 1. reflexivity.
Qed.

(** Every operation hands a failed request on unchanged: when the
    request it makes does not come back as HTTP 200, be it a timeout, a
    refused connection, another exception or another status, the
    operation returns the Failure of [_make_request] with the same
    message and the same status. *)
Theorem operations_pass_failure_on (self : ACGalaxyAPIClient.t) (w w' : World)
    (o : outcome) :
  success (response_of o) = false ->
  (forall acg_id,
     send "GET" (base_url self +:+ "/detail/" +:+ acg_id) None (timeout self) w = (o, w') ->
     get_acg_info self acg_id w
     = (error_response (message (response_of o)) (status_code (response_of o)), w')) /\
  (forall city_id city_name key order page count,
     send "GET" (base_url self +:+ "/list")
       (Some (acg_list_params city_id city_name key order page count)) (timeout self) w
     = (o, w') ->
     get_acg_list self city_id city_name key order page count w
     = (error_response (message (response_of o)) (status_code (response_of o)), w')) /\
  (forall guest_name,
     send "GET" (base_url self +:+ "/guests") (Some [("guest_name", VStr guest_name)])
       (timeout self) w = (o, w') ->
     get_guest_list self guest_name w
     = (error_response (message (response_of o)) (status_code (response_of o)), w') /\
     search_guest_events self guest_name w
     = (error_response (message (response_of o)) (status_code (response_of o)), w')) /\
  (forall guest_id,
     send "GET" (base_url self +:+ "/guest/" +:+ guest_id) None (timeout self) w = (o, w') ->
     get_guest_acg_list self guest_id w
     = (error_response (message (response_of o)) (status_code (response_of o)), w')).
Proof.
  intros Hfail. split; [|split; [|split]].
  - intros acg_id Hsend. unfold get_acg_info.
    rewrite (make_request_get_outcome self _ _ w w' o Hsend). cbv beta iota zeta.
    rewrite (failure_passed_on _ o _ Hfail). reflexivity.
  - intros city_id city_name key order page count Hsend. unfold get_acg_list.
    rewrite (make_request_get_outcome self _ _ w w' o Hsend). cbv beta iota zeta.
    rewrite (failure_passed_on _ o _ Hfail). reflexivity.
  - intros guest_name Hsend.
    assert (Hlist : get_guest_list self guest_name w
                    = (error_response (message (response_of o))
                         (status_code (response_of o)), w')).
    { unfold get_guest_list.
      rewrite (make_request_get_outcome self _ _ w w' o Hsend). cbv beta iota zeta.
      rewrite (failure_passed_on _ o _ Hfail). reflexivity. }
    split; [exact Hlist|].
    unfold search_guest_events. rewrite Hlist. reflexivity.
  - intros guest_id Hsend. unfold get_guest_acg_list.
    rewrite (make_request_get_outcome self _ _ w w' o Hsend). cbv beta iota zeta.
    rewrite (failure_passed_on _ o _ Hfail). reflexivity.
Qed.

(** [test_connection] says only whether the probe succeeded: a Success
    without data when the reply is HTTP 200, and otherwise a Failure
    whose status is always 500 and whose message is the underlying one
    behind a fixed prefix. *)
Theorem test_connection_outcome (self : ACGalaxyAPIClient.t) (w w' : World) (o : outcome) :
  send "GET" (base_url self +:+ "/list") (Some [("count", VInt 1)]) (timeout self) w
  = (o, w') ->
  test_connection self w
  = (if success (response_of o)
     then success_response (Raw VNone) "API连接正常"
     else error_response ("API连接失败: " +:+ message (response_of o)) 500,
     w') /\
  data (fst (test_connection self w)) = Raw VNone /\
  (success (fst (test_connection self w)) = true <->
   exists json text, o = Response 200 json text).
Proof.
  intros Hsend. unfold test_connection.
  rewrite (make_request_get_outcome self _ _ w w' o Hsend). cbn [fst].
  split; [reflexivity|]. split.
  - destruct (success (response_of o)); reflexivity.
  - destruct o as [c j t| | |msg]; cbn.
    + unfold from_http_response. destruct (Z.eqb_spec c 200) as [->|Hne]; cbn.
      * split; [intros _; eauto|reflexivity].
      * split; [discriminate|]. intros (j' & t' & [= Hc _ _]). contradiction.
    + split; [discriminate|intros (j' & t' & [=])].
    + split; [discriminate|intros (j' & t' & [=])].
    + split; [discriminate|intros (j' & t' & [=])].
Qed.

End Transport.

(** ** Parsing the replies *)

Section Parsing.
Context `{Builtins} `{Transport}.
Import APIResponse ACGalaxyAPIClient.

Lemma traverse_ok {A B} (f : A -> result B) (l : list A) (l' : list B) :
  traverse f l = Ok l' <-> Forall2 (fun a b => f a = Ok b) l l'.
Proof.
  revert l'. induction l as [|a l IH]; intros l'; cbn.
  - split.
    + intros [= <-]. constructor.
    + intros Hall. inversion Hall. reflexivity.
  - split.
    + destruct (f a) as [b|e] eqn:Ha; [|discriminate].
      destruct (traverse f l) as [bs|e] eqn:Hl; [|discriminate].
      intros [= <-]. constructor; [exact Ha|]. apply IH. reflexivity.
    + intros Hall. inversion Hall as [|? b ? bs Ha Hrest]; subst.
      rewrite Ha. apply IH in Hrest. rewrite Hrest. reflexivity.
Qed.

(** The loop stops at the first element that raises. *)
Lemma traverse_first_raise {A B} (f : A -> result B) (good rest : list A) (bad : A)
    (e : exn) :
  Forall (fun a => exists b, f a = Ok b) good ->
  f bad = Raise e ->
  traverse f (good ++ bad :: rest) = Raise e.
Proof.
  intros Hgood Hbad. induction Hgood as [|a good [b Ha] _ IH]; cbn.
  - rewrite Hbad. reflexivity.
  - rewrite Ha, IH. reflexivity.
Qed.

Lemma from_dict_is_dict (item : pyval) :
  is_dict item -> exists e, ACGEvent.from_dict item = Ok e.
Proof. intros [d ->]. apply from_dict_dict. Qed.

Lemma from_dict_not_dict (item : pyval) :
  ~ is_dict item -> ACGEvent.from_dict item = Raise (no_attribute item "get").
Proof.
  intros Hnd. destruct item; try reflexivity.
  exfalso. apply Hnd. eexists. reflexivity.
Qed.

(** A list reply parses item by item: HTTP 200 with an object whose
    ["data"] is a list of objects gives a Success whose events are the
    items parsed one for one, in the order received, and whose count is
    the server's ["count"] (0 when it sends none). *)
Theorem get_acg_list_parsed (self : ACGalaxyAPIClient.t) (city_id : Z)
    (city_name key order : option string) (page count : option Z) (w w' : World)
    (d : list (string * pyval)) (text : string) (items : list pyval) :
  send "GET" (base_url self +:+ "/list")
    (Some (acg_list_params city_id city_name key order page count)) (timeout self) w
  = (Response 200 (Some (VDict d)) text, w') ->
  assoc "data" d = Some (VList items) ->
  Forall is_dict items ->
  exists events,
    get_acg_list self city_id city_name key order page count w
    = (success_response
         (Obj (ACGListResponse.mk
                 (match assoc "count" d with Some c => c | None => VInt 0 end) events))
         "获取漫展列表成功", w') /\
    Forall2 (fun item e => ACGEvent.from_dict item = Ok e) items events /\
    length events = length items.
Proof.
  intros Hsend Hdata Hitems.
  assert (Hparse : exists events, traverse ACGEvent.from_dict items = Ok events).
  { clear Hdata. induction Hitems as [|item items Hd _ [events IH]]; cbn.
    - eexists. reflexivity.
    - destruct (from_dict_is_dict item Hd) as [e He]. rewrite He, IH.
      eexists. reflexivity. }
  destruct Hparse as [events Hparse]. exists events.
  assert (Hall : Forall2 (fun item e => ACGEvent.from_dict item = Ok e) items events)
    by (apply traverse_ok; exact Hparse).
  split; [|split; [exact Hall|]].
  - unfold get_acg_list.
    rewrite (make_request_get self _ _ w w' 200 (Some (VDict d)) text Hsend).
    cbv beta iota zeta. cbn [from_http_response Z.eqb Pos.eqb success_response success
                              data raw_data decoded_body truthy].
    destruct d as [|kv d]; [discriminate|]. cbn [andb].
    unfold ACGListResponse.from_dict. cbn [get rbind]. rewrite Hdata.
    cbn [iter rbind]. rewrite Hparse. reflexivity.
  - symmetry. exact (Forall2_length _ _ _ Hall).
Qed.

(** One item that is not an object spoils the whole list: the result is
    the Failure with status 500 that names the first such item's type,
    and no event of the reply is returned. *)
Theorem get_acg_list_bad_item (self : ACGalaxyAPIClient.t) (city_id : Z)
    (city_name key order : option string) (page count : option Z) (w w' : World)
    (d : list (string * pyval)) (text : string) (good rest : list pyval) (bad : pyval) :
  send "GET" (base_url self +:+ "/list")
    (Some (acg_list_params city_id city_name key order page count)) (timeout self) w
  = (Response 200 (Some (VDict d)) text, w') ->
  assoc "data" d = Some (VList (good ++ bad :: rest)) ->
  Forall is_dict good ->
  ~ is_dict bad ->
  get_acg_list self city_id city_name key order page count w
  = (error_response
       ("获取漫展列表失败: '" +:+ type_name bad +:+ "' object has no attribute 'get'")
       500, w').
Proof.
  intros Hsend Hdata Hgood Hbad. unfold get_acg_list.
  rewrite (make_request_get self _ _ w w' 200 (Some (VDict d)) text Hsend).
  cbv beta iota zeta. cbn [from_http_response Z.eqb Pos.eqb success_response success
                            data raw_data decoded_body truthy].
  destruct d as [|kv d]; [discriminate|]. cbn [andb].
  unfold ACGListResponse.from_dict. cbn [get rbind]. rewrite Hdata. cbn [iter rbind].
  rewrite (traverse_first_raise ACGEvent.from_dict good rest bad (no_attribute bad "get")).
  - reflexivity.
  - eapply List.Forall_impl; [|exact Hgood]. intros item Hd. exact (from_dict_is_dict item Hd).
  - exact (from_dict_not_dict bad Hbad).
Qed.

(** A ["data"] that is present but null is not the same as a missing
    one: missing gives the Success with no event, null the Failure with
    status 500. *)
Theorem get_acg_list_no_data (self : ACGalaxyAPIClient.t) (city_id : Z)
    (city_name key order : option string) (page count : option Z) (w w' : World)
    (d : list (string * pyval)) (text : string) :
  send "GET" (base_url self +:+ "/list")
    (Some (acg_list_params city_id city_name key order page count)) (timeout self) w
  = (Response 200 (Some (VDict d)) text, w') ->
  d <> [] ->
  (assoc "data" d = None ->
   get_acg_list self city_id city_name key order page count w
   = (success_response
        (Obj (ACGListResponse.mk
                (match assoc "count" d with Some c => c | None => VInt 0 end) []))
        "获取漫展列表成功", w')) /\
  (assoc "data" d = Some VNone ->
   get_acg_list self city_id city_name key order page count w
   = (error_response "获取漫展列表失败: 'NoneType' object is not iterable" 500, w')).
Proof.
  intros Hsend Hd. unfold get_acg_list.
  rewrite (make_request_get self _ _ w w' 200 (Some (VDict d)) text Hsend).
  cbv beta iota zeta. cbn [from_http_response Z.eqb Pos.eqb success_response success
                            data raw_data decoded_body truthy].
  destruct d as [|kv d]; [contradiction|]. cbn [andb].
  unfold ACGListResponse.from_dict. cbn [get rbind].
  split; intros ->; reflexivity.
Qed.

(** [get_acg_info] is a Success that carries an event exactly when the
    reply is HTTP 200 with an object whose ["data"] is a non-empty
    object; the event is then that object parsed. *)
Theorem get_acg_info_event (self : ACGalaxyAPIClient.t) (acg_id : string) (w w' : World)
    (o : outcome) (e : ACGEvent.t) :
  send "GET" (base_url self +:+ "/detail/" +:+ acg_id) None (timeout self) w = (o, w') ->
  data (fst (get_acg_info self acg_id w)) = Obj e
  <-> exists d text item,
        o = Response 200 (Some (VDict d)) text /\
        assoc "data" d = Some (VDict item) /\
        item <> [] /\
        ACGEvent.from_dict (VDict item) = Ok e.
Proof.
  intros Hsend. unfold get_acg_info.
  rewrite (make_request_get_outcome self _ _ w w' o Hsend). cbv beta iota zeta. cbn [fst].
  split.
  - destruct o as [c j text| | |msg]; cbn; try discriminate.
    unfold from_http_response. destruct (Z.eqb_spec c 200) as [->|Hne]; cbn; [|discriminate].
    destruct j as [body|]; cbn; [|discriminate].
    destruct (truthy body) eqn:Hbody; cbn; [|discriminate].
    destruct body as [|b|z|s|l|d]; cbn; try discriminate.
    destruct (assoc "data" d) as [event_data|] eqn:Hdata; cbn; [|discriminate].
    destruct (truthy event_data) eqn:Htruthy; cbn; [|discriminate].
    destruct event_data as [|b|z|s|l|item]; cbn; try discriminate.
    intros [= <-]. exists d, text, item.
    repeat split; [exact Hdata|intros ->; discriminate].
  - intros (d & text & item & -> & Hdata & Hitem & Hparse). cbn.
    destruct d as [|kv d]; [discriminate|]. cbn [andb truthy].
    cbn [get rbind]. rewrite Hdata.
    destruct item as [|kv' item]; [contradiction|]. cbn [truthy].
    rewrite Hparse. reflexivity.
Qed.

End Parsing.

(** ** The guest search as a whole *)

Section GuestSearchMore.
Context `{Builtins}.
Import APIResponse ACGalaxyAPIClient.

Lemma collect_guest_events_tags `{Transport} (self : ACGalaxyAPIClient.t)
    (found guests : list Guest.t) (all_events events : list event_dict) (w w' : World) :
  (forall g, In g guests -> In g found) ->
  Forall (fun ed => In (guest ed) found) all_events ->
  collect_guest_events self guests all_events w = (Ok events, w') ->
  Forall (fun ed => In (guest ed) found) events.
Proof.
  revert all_events w. induction guests as [|g rest IH]; intros all_events w Hsub Hacc; cbn.
  - intros [= <- _]. exact Hacc.
  - destruct (get_guest_acg_list self (Guest.id g) w) as [acg_response w1].
    assert (Hrest : forall g', In g' rest -> In g' found)
      by (intros g' Hg'; apply Hsub; right; exact Hg').
    destruct (success acg_response).
    + destruct (data acg_response) as [v|guest_acg_data]; [discriminate|].
      apply IH; [exact Hrest|].
      apply List.Forall_app. split; [exact Hacc|].
      apply List.Forall_forall. intros ed Hed. apply in_map_iff in Hed.
      destruct Hed as (event & <- & _). cbn. apply Hsub. left. reflexivity.
    + apply IH; assumption.
Qed.

(** Whenever [search_guest_events] is a Success, its data is the result
    dict: the guest list is not empty, every event is tagged with one of
    those guests, and [total_count] is the number of events. *)
Theorem search_guest_events_success `{Transport} (self : ACGalaxyAPIClient.t)
    (guest_name : string) (w : World) :
  success (fst (search_guest_events self guest_name w)) = true ->
  exists guests events,
    data (fst (search_guest_events self guest_name w))
    = Obj (ResultData guests events (Z.of_nat (length events))) /\
    guests <> [] /\
    Forall (fun ed => In (guest ed) guests) events.
Proof.
  unfold search_guest_events.
  destruct (get_guest_list self guest_name w) as [guest_response w1].
  destruct (success guest_response) eqn:Hsucc; cbn [negb].
  - destruct (data guest_response) as [v|guest_list]; [cbn; discriminate|].
    destruct (GuestListResponse.data guest_list) as [|g rest] eqn:Hguests;
      [cbn; discriminate|].
    destruct (collect_guest_events self (g :: rest) [] w1) as [[events|e] w2] eqn:Hc;
      [|cbn; discriminate].
    cbn. intros _. exists (g :: rest), events. split; [reflexivity|].
    split; [discriminate|].
    apply (collect_guest_events_tags self (g :: rest) (g :: rest) [] events w1 w2);
      [auto|constructor|exact Hc].
  - cbn. rewrite Hsucc. discriminate.
Qed.

Lemma make_request_get_log `{T : Transport} (self : ACGalaxyAPIClient.t) (endpoint : string)
    (params : option (list (string * pyval))) (log : list request) (w : @World T) :
  fst (snd (_make_request (H0 := recording T) self "GET" endpoint params (log, w)))
  = log ++ [("GET", base_url self +:+ endpoint, params, timeout self)].
Proof.
  unfold _make_request.
  change (String.eqb (upper "GET") "GET") with true. cbv iota. cbn.
  destruct (send _ _ _ _ w) as [o w']. reflexivity.
Qed.

Lemma get_guest_acg_list_log `{T : Transport} (self : ACGalaxyAPIClient.t)
    (guest_id : string) (log : list request) (w : @World T) :
  fst (snd (get_guest_acg_list (H0 := recording T) self guest_id (log, w)))
  = log ++ [("GET", base_url self +:+ "/guest/" +:+ guest_id, None, timeout self)].
Proof.
  unfold get_guest_acg_list.
  pose proof (make_request_get_log self ("/guest/" +:+ guest_id) None log w) as Hlog.
  destruct (_make_request (H0 := recording T) self "GET" ("/guest/" +:+ guest_id) None (log, w))
    as [response w']. exact Hlog.
Qed.

Lemma get_guest_list_log `{T : Transport} (self : ACGalaxyAPIClient.t)
    (guest_name : string) (log : list request) (w : @World T) :
  fst (snd (get_guest_list (H0 := recording T) self guest_name (log, w)))
  = log ++ [("GET", base_url self +:+ "/guests", Some [("guest_name", VStr guest_name)],
             timeout self)].
Proof.
  unfold get_guest_list.
  pose proof (make_request_get_log self "/guests"
                (Some [("guest_name", VStr guest_name)]) log w) as Hlog.
  destruct (_make_request (H0 := recording T) self "GET" "/guests"
              (Some [("guest_name", VStr guest_name)]) (log, w)) as [response w'].
  exact Hlog.
Qed.

Lemma fetched_events_log `{T : Transport} (self : ACGalaxyAPIClient.t)
    (guests : list Guest.t) (w : @World (recording T)) :
  fst (snd (fetched_events (H0 := recording T) self guests w))
  = fst w ++ map (guest_request self) guests.
Proof.
  revert w. induction guests as [|g rest IH]; intros w; cbn.
  - rewrite app_nil_r. reflexivity.
  - destruct w as [log w].
    pose proof (get_guest_acg_list_log self (Guest.id g) log w) as Hlog.
    destruct (get_guest_acg_list (H0 := recording T) self (Guest.id g) (log, w))
      as [acg_response w1].
    specialize (IH w1).
    destruct (fetched_events (H0 := recording T) self rest w1) as [others w2].
    cbn in *. rewrite IH, Hlog, <- app_assoc. reflexivity.
Qed.

(** The requests of a guest search: first the search by name, then one
    fetch for each guest found, in the order of the guest list and under
    the guest's id; nothing else.  (Every fetch being a Failure or a
    Success that carries the parsed list.) *)
Theorem search_guest_events_requests `{T : Transport} (self : ACGalaxyAPIClient.t)
    (guest_name : string) (log : list request) (w : @World T)
    (guest_response : APIResponse.t GuestListResponse.t) (w1 : @World (recording T))
    (guest_list : GuestListResponse.t) :
  get_guest_list (H0 := recording T) self guest_name (log, w) = (guest_response, w1) ->
  success guest_response = true ->
  data guest_response = Obj guest_list ->
  fetches_settled (H0 := recording T) self (GuestListResponse.data guest_list) w1 ->
  fst (snd (search_guest_events (H0 := recording T) self guest_name (log, w)))
  = log ++
    ("GET", base_url self +:+ "/guests", Some [("guest_name", VStr guest_name)],
     timeout self)
    :: map (guest_request self) (GuestListResponse.data guest_list).
Proof.
  intros Hget Hsucc Hdata Hsettled.
  pose proof (get_guest_list_log self guest_name log w) as Hlog.
  rewrite Hget in Hlog. cbn [snd] in Hlog.
  unfold search_guest_events. rewrite Hget, Hsucc. cbn [negb]. rewrite Hdata.
  destruct (GuestListResponse.data guest_list) as [|g rest] eqn:Hguests.
  - cbn. rewrite Hlog. reflexivity.
  - rewrite (collect_guest_events_settled (H0 := recording T) self (g :: rest) [] w1 Hsettled).
    cbn [snd]. rewrite fetched_events_log, Hlog, <- app_assoc. reflexivity.
Qed.

End GuestSearchMore.

(** ** Grouping, whatever the clock and the fields *)

Section GroupingMore.
Import TimeGroupedEvents.

Lemma append_to_no_empty (k : pyval) (e : ACGEvent.t) (d : list (pyval * list ACGEvent.t)) :
  Forall (fun kv => snd kv <> []) d ->
  Forall (fun kv => snd kv <> []) (append_to k e d).
Proof.
  induction 1 as [|[k' es] d Hne Hd IH]; cbn.
  - constructor; [discriminate|constructor].
  - destruct (key_eqb k' k).
    + constructor; [|assumption]. cbn. intros Hnil.
      apply app_eq_nil in Hnil. destruct Hnil as [_ Hnil]. discriminate.
    + constructor; assumption.
Qed.

Lemma from_events_loop_complete (clock : nat -> Q) (events : list ACGEvent.t) (i : nat)
    (d d' : list (pyval * list ACGEvent.t)) :
  from_events_loop clock i events d = Ok d' ->
  Permutation (concat (map snd d')) (concat (map snd d) ++ events) /\
  (Forall (fun kv => snd kv <> []) d -> Forall (fun kv => snd kv <> []) d').
Proof.
  revert i d. induction events as [|e rest IH]; intros i d; cbn.
  - intros [= <-]. rewrite app_nil_r. split; [reflexivity|auto].
  - destruct (time_key e (clock i)) as [k|x]; cbn; [|discriminate].
    destruct (hashable k); [|discriminate].
    intros Hrun. destruct (IH _ _ Hrun) as [Hperm Hne]. split.
    + rewrite Hperm, append_to_concat, <- app_assoc. reflexivity.
    + intros Hd. apply Hne, append_to_no_empty. exact Hd.
Qed.

Lemma get_total_count_length (tg : TimeGroupedEvents.t) :
  get_total_count tg = Z.of_nat (length (concat (map snd (time_groups tg)))).
Proof.
  unfold get_total_count. induction (time_groups tg) as [|[k es] d IH]; cbn.
  - reflexivity.
  - rewrite IH, length_app. lia.
Qed.

(** Whenever the grouping returns, however the clock moved while it ran
    and whatever the events hold, the buckets together contain exactly
    the events given, no bucket is empty, and [get_total_count] is the
    number of events given. *)
Theorem from_events_complete (clock : nat -> Q) (events : list ACGEvent.t)
    (tg : TimeGroupedEvents.t) :
  from_events_clock clock events = Ok tg ->
  Permutation (concat (map snd (time_groups tg))) events /\
  Forall (fun kv => snd kv <> []) (time_groups tg) /\
  get_total_count tg = Z.of_nat (length events).
Proof.
  unfold from_events_clock.
  destruct (from_events_loop clock 0 events []) as [d|x] eqn:Hrun; cbn; [|discriminate].
  intros [= <-]. cbn [time_groups].
  destruct (from_events_loop_complete clock events 0 [] d Hrun) as [Hperm Hne].
  cbn in Hperm. split; [exact Hperm|]. split; [apply Hne; constructor|].
  rewrite get_total_count_length. cbn [time_groups].
  rewrite (Permutation_length Hperm). reflexivity.
Qed.

Lemma unordered_not_number (v : pyval) :
  unordered_with_float v = true -> as_number v = None.
Proof. destruct v; cbn; congruence. Qed.

Lemma time_key_raises (e : ACGEvent.t) (now : Q) (x : exn) :
  time_key e now = Raise x -> exists msg, x = TypeError msg.
Proof.
  unfold time_key, ACGEvent.is_ongoing, ACGEvent.le_float, ACGEvent.float_le.
  destruct (as_number (ACGEvent.start_unix e)) as [a|]; cbn.
  - destruct (Qle_bool (inject_Z a) now); cbn; [|discriminate].
    destruct (as_number (ACGEvent.end_unix e)) as [b|]; cbn; [discriminate|].
    intros [= <-]. eexists. reflexivity.
  - intros [= <-]. eexists. reflexivity.
Qed.

Lemma time_key_unordered (e : ACGEvent.t) (now : Q) :
  unordered_with_float (ACGEvent.start_unix e) = true ->
  time_key e now
  = Raise (TypeError ("'<=' not supported between instances of '" +:+
                      type_name (ACGEvent.start_unix e) +:+ "' and 'float'")).
Proof.
  intros Hu. unfold time_key, ACGEvent.is_ongoing, ACGEvent.le_float.
  rewrite (unordered_not_number _ Hu). reflexivity.
Qed.

Lemma from_events_loop_raises (clock : nat -> Q) (before after : list ACGEvent.t)
    (e : ACGEvent.t) (i : nat) (d : list (pyval * list ACGEvent.t)) :
  unordered_with_float (ACGEvent.start_unix e) = true ->
  exists msg, from_events_loop clock i (before ++ e :: after) d = Raise (TypeError msg).
Proof.
  intros Hu. revert i d. induction before as [|b before IH]; intros i d; cbn.
  - rewrite (time_key_unordered e (clock i) Hu). cbn. eexists. reflexivity.
  - destruct (time_key b (clock i)) as [k|x] eqn:Hk; cbn.
    + destruct (hashable k); [apply IH|]. eexists. reflexivity.
    + destruct (time_key_raises b (clock i) x Hk) as [msg ->]. eexists. reflexivity.
Qed.

Lemma from_events_loop_first_unordered (clock : nat -> Q) (before after : list ACGEvent.t)
    (e : ACGEvent.t) (i : nat) (d : list (pyval * list ACGEvent.t)) :
  Forall event_typed before ->
  unordered_with_float (ACGEvent.start_unix e) = true ->
  from_events_loop clock i (before ++ e :: after) d
  = Raise (TypeError ("'<=' not supported between instances of '" +:+
                      type_name (ACGEvent.start_unix e) +:+ "' and 'float'")).
Proof.
  intros Htyped Hu. revert i d.
  induction Htyped as [|b before Hb _ IH]; intros i d; cbn.
  - rewrite (time_key_unordered e (clock i) Hu). reflexivity.
  - rewrite (time_key_typed b (clock i) Hb). cbn. apply IH.
Qed.

(** The grouping never skips an event it cannot place: if the
    [start_unix] of some event is None, a string, a list or a dict, the
    grouping raises a TypeError and returns no bucket at all, whatever
    the other events hold and however the clock moves.  When the events
    before it are typed as the dataclass declares, the error is that of
    its comparison with the clock. *)
Theorem from_events_needs_numbers (clock : nat -> Q) (before after : list ACGEvent.t)
    (e : ACGEvent.t) :
  unordered_with_float (ACGEvent.start_unix e) = true ->
  (exists msg, from_events_clock clock (before ++ e :: after) = Raise (TypeError msg)) /\
  (Forall event_typed before ->
   from_events_clock clock (before ++ e :: after)
   = Raise (TypeError ("'<=' not supported between instances of '" +:+
                       type_name (ACGEvent.start_unix e) +:+ "' and 'float'"))).
Proof.
  intros Hu. unfold from_events_clock. split.
  - destruct (from_events_loop_raises clock before after e 0 [] Hu) as [msg Hrun].
    exists msg. rewrite Hrun. reflexivity.
  - intros Htyped.
    rewrite (from_events_loop_first_unordered clock before after e 0 [] Htyped Hu).
    reflexivity.
Qed.

Lemma first_seen_from_app (seen l : list string) (x : string) :
  first_seen_from seen (l ++ [x])
  = first_seen_from seen l ++
    (if existsb (String.eqb x) (l ++ seen) then [] else [x]).
Proof.
  revert seen. induction l as [|y l IH]; intros seen; cbn.
  - destruct (existsb (String.eqb x) seen); reflexivity.
  - destruct (existsb (String.eqb y) seen) eqn:Hy.
    + rewrite IH. f_equal.
      destruct (String.eqb_spec x y) as [->|Hne]; cbn.
      * rewrite existsb_app, Hy, orb_true_r. reflexivity.
      * reflexivity.
    + cbn. rewrite IH. f_equal. f_equal.
      rewrite !existsb_app. cbn.
      destruct (String.eqb x y), (existsb (String.eqb x) l), (existsb (String.eqb x) seen);
        reflexivity.
Qed.

Lemma existsb_first_seen (x : string) (l : list string) :
  existsb (String.eqb x) (first_seen l) = existsb (String.eqb x) l.
Proof.
  unfold first_seen. induction l as [|y l IH] using rev_ind; [reflexivity|].
  rewrite first_seen_from_app, app_nil_r, !existsb_app, IH. cbn.
  destruct (existsb (String.eqb x) l) eqn:Hx; cbn; [reflexivity|].
  destruct (existsb (String.eqb y) l) eqn:Hy; cbn.
  - destruct (String.eqb_spec x y) as [->|_]; [congruence|reflexivity].
  - reflexivity.
Qed.

Lemma append_to_keys (b : string) (e : ACGEvent.t) (d : list (pyval * list ACGEvent.t))
    (keys : list string) :
  map fst d = map VStr keys ->
  map fst (append_to (VStr b) e d)
  = map VStr (keys ++ (if existsb (String.eqb b) keys then [] else [b])).
Proof.
  revert keys. induction d as [|[k es] d IH]; intros keys; cbn.
  - destruct keys; [reflexivity|discriminate].
  - destruct keys as [|s keys]; [discriminate|]. cbn. intros [= -> Hrest].
    rewrite key_eqb_str, (String.eqb_sym b s).
    destruct (String.eqb s b); cbn.
    + rewrite app_nil_r, Hrest. reflexivity.
    + rewrite (IH keys Hrest). reflexivity.
Qed.

Lemma from_events_loop_keys (now : Q) (rest seen : list ACGEvent.t) (i : nat)
    (d d' : list (pyval * list ACGEvent.t)) :
  Forall event_typed rest ->
  map fst d = map VStr (first_seen (map (bucket_of now) seen)) ->
  from_events_loop (fun _ => now) i rest d = Ok d' ->
  map fst d' = map VStr (first_seen (map (bucket_of now) (seen ++ rest))).
Proof.
  revert seen i d. induction rest as [|e rest IH]; intros seen i d Htyped Hkeys; cbn.
  - intros [= <-]. rewrite app_nil_r. exact Hkeys.
  - inversion Htyped as [|? ? He Hrest]; subst.
    rewrite (time_key_typed e now He). cbn. intros Hrun.
    replace (seen ++ e :: rest) with ((seen ++ [e]) ++ rest)
      by (rewrite <- app_assoc; reflexivity).
    apply (IH (seen ++ [e]) (S i) (append_to (VStr (bucket_of now e)) e d) Hrest);
      [|exact Hrun].
    rewrite (append_to_keys _ e d _ Hkeys). f_equal.
    rewrite (map_app (bucket_of now)). cbn [map].
    rewrite existsb_first_seen. unfold first_seen.
    rewrite first_seen_from_app, app_nil_r. reflexivity.
Qed.

(** The buckets come in the order in which their keys are first met in
    the input, not in the order of the dates. *)
Theorem from_events_key_order (now : Q) (events : list ACGEvent.t)
    (tg : TimeGroupedEvents.t) :
  Forall event_typed events ->
  from_events now events = Ok tg ->
  map fst (time_groups tg) = map VStr (first_seen (map (bucket_of now) events)).
Proof.
  intros Htyped. unfold from_events, from_events_clock.
  destruct (from_events_loop (fun _ => now) 0 events []) as [d|x] eqn:Hrun; cbn;
    [|discriminate].
  intros [= <-]. cbn.
  exact (from_events_loop_keys now events [] 0 [] d Htyped eq_refl Hrun).
Qed.

End GroupingMore.

(** ** The phases of an event *)

Section Phases.

(** At any time an event whose [start_unix] does not exceed its
    [end_unix] is in exactly one phase: upcoming, ongoing or finished. *)
Theorem event_phase_exclusive (e : ACGEvent.t) (a b : Z) (now : Q) :
  ACGEvent.start_unix e = VInt a ->
  ACGEvent.end_unix e = VInt b ->
  a <= b ->
  exists upcoming ongoing finished,
    ACGEvent.is_upcoming e now = Ok upcoming /\
    ACGEvent.is_ongoing e now = Ok ongoing /\
    ACGEvent.is_finished e now = Ok finished /\
    ((upcoming = true /\ ongoing = false /\ finished = false) \/
     (upcoming = false /\ ongoing = true /\ finished = false) \/
     (upcoming = false /\ ongoing = false /\ finished = true)).
Proof.
  intros Ha Hb Hab.
  unfold ACGEvent.is_upcoming, ACGEvent.is_ongoing, ACGEvent.is_finished,
    ACGEvent.float_lt, ACGEvent.float_gt, ACGEvent.le_float, ACGEvent.float_le.
  rewrite Ha, Hb. cbn [as_number rbind].
  destruct (Qle_bool (inject_Z a) now) eqn:Hstart;
    destruct (Qle_bool now (inject_Z b)) eqn:Hend;
    do 3 eexists; (split; [reflexivity|]); (split; [reflexivity|]);
    (split; [reflexivity|]); cbn; auto.
  exfalso.
  assert (Hlt1 : (now < inject_Z a)%Q).
  { apply Qnot_le_lt. intros Hle. apply Qle_bool_iff in Hle. congruence. }
  assert (Hlt2 : (inject_Z b < now)%Q).
  { apply Qnot_le_lt. intros Hle. apply Qle_bool_iff in Hle. congruence. }
  assert (Hba : (inject_Z b < inject_Z a)%Q) by (eapply Qlt_trans; eassumption).
  rewrite <- Zlt_Qlt in Hba. lia.
Qed.

(** With the two timestamps the wrong way round the event is never
    ongoing, and between them it counts as upcoming and as finished at
    once. *)
Lemma event_phase_inverted (e : ACGEvent.t) (a b : Z) (now : Q) :
  ACGEvent.start_unix e = VInt a ->
  ACGEvent.end_unix e = VInt b ->
  b < a ->
  ACGEvent.is_ongoing e now = Ok false /\
  ((inject_Z b < now)%Q -> (now < inject_Z a)%Q ->
   ACGEvent.is_upcoming e now = Ok true /\ ACGEvent.is_finished e now = Ok true).
Proof.
  intros Ha Hb Hba.
  unfold ACGEvent.is_upcoming, ACGEvent.is_ongoing, ACGEvent.is_finished,
    ACGEvent.float_lt, ACGEvent.float_gt, ACGEvent.le_float, ACGEvent.float_le.
  rewrite Ha, Hb. cbn [as_number rbind]. split.
  - destruct (Qle_bool (inject_Z a) now) eqn:Hstart; [|reflexivity].
    destruct (Qle_bool now (inject_Z b)) eqn:Hend; [|reflexivity].
    exfalso. apply Qle_bool_iff in Hstart. apply Qle_bool_iff in Hend.
    assert (Hab : (inject_Z a <= inject_Z b)%Q) by (eapply Qle_trans; eassumption).
    rewrite <- Zle_Qle in Hab. lia.
  - intros Hlo Hhi.
    assert (H1 : Qle_bool (inject_Z a) now = false).
    { destruct (Qle_bool (inject_Z a) now) eqn:Hq; [|reflexivity].
      apply Qle_bool_iff in Hq. exfalso. exact (Qlt_not_le _ _ Hhi Hq). }
    assert (H2 : Qle_bool now (inject_Z b) = false).
    { destruct (Qle_bool now (inject_Z b)) eqn:Hq; [|reflexivity].
      apply Qle_bool_iff in Hq. exfalso. exact (Qlt_not_le _ _ Hlo Hq). }
    rewrite H1, H2. split; reflexivity.
Qed.

End Phases.

(** ** Map links *)

Section MapLinks.
Context `{Builtins}.

Lemma append_inj_r (p s s' : string) : p +:+ s = p +:+ s' -> s = s'.
Proof.
  induction p as [|c p IH]; cbn; [auto|]. intros [= Heq]. exact (IH Heq).
Qed.

(** The three builders of the map link agree; the link is empty exactly
    for an empty coordinate, and otherwise different coordinates give
    different links. *)
Theorem coordinate_url_agree (self : ACGalaxyAPIClient.t) (e : ACGEvent.t)
    (coordinate coordinate' : string) :
  ACGalaxyAPIClient.get_coordinate_url self coordinate = format_coordinate_url coordinate /\
  (ACGEvent.coordinate e = VStr coordinate ->
   ACGEvent.amap_url e = format_coordinate_url coordinate) /\
  (ACGEvent.coordinate e = VNone -> ACGEvent.amap_url e = "") /\
  (format_coordinate_url coordinate = "" <-> coordinate = "") /\
  (format_coordinate_url coordinate = format_coordinate_url coordinate' ->
   coordinate = coordinate').
Proof.
  split; [reflexivity|]. split; [|split; [|split]].
  - intros Hc. unfold ACGEvent.amap_url, format_coordinate_url. rewrite Hc. cbn.
    destruct (String.eqb coordinate ""); reflexivity.
  - intros Hc. unfold ACGEvent.amap_url. rewrite Hc. reflexivity.
  - unfold format_coordinate_url.
    destruct (String.eqb_spec coordinate "") as [->|Hne]; split; try reflexivity.
    + discriminate.
    + contradiction.
  - unfold format_coordinate_url.
    destruct (String.eqb_spec coordinate "") as [->|Hne];
      destruct (String.eqb_spec coordinate' "") as [->|Hne']; try reflexivity;
      try discriminate.
    apply append_inj_r.
Qed.

End MapLinks.

(** ** The cache, from any state *)

Section CacheMore.
Context {V : Type}.
Import ACGalaxyPlugin.

(** A read never serves a stale value and never touches another key: a
    value returned was stored under that key less than the expiry window
    ago and the state is unchanged; when nothing is returned the key is
    absent afterwards and every other entry, stale or not, is still
    there. *)
Theorem get_cached_data_sound (self self' : t V) (key : string) (now : Q)
    (found : option V) :
  get_cached_data self key now = (found, self') ->
  cache_expire_time self' = cache_expire_time self /\
  (forall k, k <> key -> cache self' !! k = cache self !! k) /\
  match found with
  | Some data =>
      self' = self /\
      exists timestamp,
        cache self !! key = Some (data, timestamp) /\
        (now - timestamp < cache_expire_time self)%Q
  | None => cache self' !! key = None
  end.
Proof.
  unfold get_cached_data.
  destruct (cache self !! key) as [[data timestamp]|] eqn:Hk.
  - destruct (Qltb (now - timestamp) (cache_expire_time self)) eqn:Hfresh.
    + intros [= <- <-]. split; [reflexivity|]. split; [reflexivity|].
      split; [reflexivity|]. exists timestamp. split; [reflexivity|].
      unfold Qltb in Hfresh. apply Qnot_le_lt. intros Hle.
      apply Qle_bool_iff in Hle. rewrite Hle in Hfresh. discriminate.
    + intros [= <- <-]. cbn. split; [reflexivity|]. split.
      * intros k Hne. apply lookup_delete_ne. congruence.
      * apply lookup_delete_eq.
  - intros [= <- <-]. split; [reflexivity|]. split; [reflexivity|]. exact Hk.
Qed.

(** Storing again under a key replaces the value and restarts its
    clock; storing under one key leaves what a read of another key
    returns as it was. *)
Theorem set_cached_data_overwrites (self : t V) (k k' : string) (v v' : V)
    (t1 t2 now : Q) :
  set_cached_data (set_cached_data self k v t1) k v' t2 = set_cached_data self k v' t2 /\
  ((now - t2 < cache_expire_time self)%Q ->
   fst (get_cached_data (set_cached_data (set_cached_data self k v t1) k v' t2) k now)
   = Some v') /\
  (k' <> k ->
   fst (get_cached_data (set_cached_data self k v t1) k' now)
   = fst (get_cached_data self k' now)).
Proof.
  split; [|split].
  - unfold set_cached_data. cbn. rewrite insert_insert_eq. reflexivity.
  - intros Hfresh.
    rewrite (get_cached_fresh
               (set_cached_data (set_cached_data self k v t1) k v' t2) k v' t2 now).
    + reflexivity.
    + unfold set_cached_data. cbn. apply lookup_insert_eq.
    + exact Hfresh.
  - intros Hne. unfold get_cached_data, set_cached_data. cbn.
    rewrite lookup_insert_ne by congruence.
    destruct (cache self !! k') as [[data timestamp]|]; [|reflexivity].
    destruct (Qltb (now - timestamp) (cache_expire_time self)); reflexivity.
Qed.

End CacheMore.

(** ** The calendar command and the cache *)

Section CalendarCache.
Context `{Builtins} `{Transport}.
Import ACGalaxyPlugin.

Lemma calendar_response_cached
    (self : t (APIResponse.t ACGListResponse.t)) (cfg : config)
    (api_client : ACGalaxyAPIClient.t) (city : string) (now_get now_set timestamp : Q)
    (response : APIResponse.t ACGListResponse.t) (w : World) :
  city <> "" ->
  cache self !! ("calendar_" +:+ city) = Some (response, timestamp) ->
  (now_get - timestamp < cache_expire_time self)%Q ->
  calendar_response self cfg api_client city now_get now_set w = ((response, self), w).
Proof.
  intros Hcity Hk Hfresh. unfold calendar_response.
  destruct (String.eqb_spec city "") as [->|_]; [contradiction|].
  rewrite (get_cached_fresh self _ response timestamp now_get Hk Hfresh). reflexivity.
Qed.

(** A fresh entry answers the calendar command without any request: the
    cached response is returned and neither the plugin state nor the
    world changes. *)
Theorem calendar_response_hit
    (self : t (APIResponse.t ACGListResponse.t)) (cfg : config)
    (api_client : ACGalaxyAPIClient.t) (city : string) (now_get now_set timestamp : Q)
    (response : APIResponse.t ACGListResponse.t) (w : World) :
  city <> "" ->
  cache self !! ("calendar_" +:+ city) = Some (response, timestamp) ->
  (now_get - timestamp < cache_expire_time self)%Q ->
  calendar_response self cfg api_client city now_get now_set w = ((response, self), w).
Proof.
  intros Hcity Hk Hfresh.
  exact (calendar_response_cached self cfg api_client city now_get now_set timestamp
           response w Hcity Hk Hfresh).
Qed.

(** On a miss the command asks the client once.  A Failure is returned
    but never stored; a Success is stored, so that asking again within
    the expiry window gives the same response without a request. *)
Theorem calendar_response_miss
    (self self1 : t (APIResponse.t ACGListResponse.t)) (cfg : config)
    (api_client : ACGalaxyAPIClient.t) (city : string) (now_get now_set now2 now_set2 : Q)
    (response : APIResponse.t ACGListResponse.t) (w w1 : World) :
  city <> "" ->
  cache self !! ("calendar_" +:+ city) = None ->
  calendar_response self cfg api_client city now_get now_set w = ((response, self1), w1) ->
  ACGalaxyAPIClient.get_city_acg_calendar api_client city (max_results_per_page cfg) w
  = (response, w1) /\
  (APIResponse.success response = false -> self1 = self) /\
  (APIResponse.success response = true ->
   cache self1 !! ("calendar_" +:+ city) = Some (response, now_set) /\
   ((now2 - now_set < cache_expire_time self)%Q ->
    calendar_response self1 cfg api_client city now2 now_set2 w1
    = ((response, self1), w1))).
Proof.
  intros Hcity Hk. unfold calendar_response at 1.
  destruct (String.eqb_spec city "") as [->|_]; [contradiction|].
  unfold get_cached_data at 1. rewrite Hk. cbv beta iota zeta.
  destruct (ACGalaxyAPIClient.get_city_acg_calendar api_client city
              (max_results_per_page cfg) w) as [r w'] eqn:Hcall.
  destruct (APIResponse.success r) eqn:Hsucc; intros [= <- <- <-].
  - split; [reflexivity|]. split; [congruence|]. intros _.
    assert (Hstored : cache (set_cached_data self ("calendar_" +:+ city) r now_set)
                      !! ("calendar_" +:+ city) = Some (r, now_set)).
    { unfold set_cached_data. cbn. apply lookup_insert_eq. }
    split; [exact Hstored|]. intros Hfresh.
    apply (calendar_response_cached _ cfg api_client city now2 now_set2 now_set r w');
      [exact Hcity|exact Hstored|exact Hfresh].
  - split; [reflexivity|]. split; [reflexivity|]. intros Habs. congruence.
Qed.

End CalendarCache.

(** ** Days until start, as time passes *)

Section DaysMore.
Context `{Datetime}.
Import TimeGroupedEvents.

(** The days until start never grow as the clock advances. *)
Theorem get_days_until_start_antitone (self : TimeGroupedEvents.t) (time_key : pyval)
    (now now' : Z) :
  now <= now' ->
  get_days_until_start self time_key now' <= get_days_until_start self time_key now.
Proof.
  intros Hle. unfold get_days_until_start.
  destruct (eq_str time_key ongoing_key); [lia|].
  destruct time_key as [|b|z|s|l|d].
  - cbn. lia.
  - cbn. lia.
  - cbn. lia.
  - rewrite !days_try_str.
    destruct (strptime _ _) as [target|]; [|lia].
    assert (Hdiv : (target - now') / 86400000000 <= (target - now) / 86400000000)
      by (apply Z.div_le_mono; lia).
    lia.
  - cbn. destruct (existsb _ l); lia.
  - cbn. destruct (assoc " " d); lia.
Qed.

Lemma before_first_space_cut (s tail : string) :
  contains " " s = false ->
  before_first_space (s +:+ String " " tail) = s.
Proof.
  induction s as [|c s IH]; [reflexivity|].
  change (String c s +:+ String " " tail) with (String c (s +:+ String " " tail)).
  cbn [before_first_space contains].
  destruct (Ascii.eqb c " "); cbn [orb]; [discriminate|].
  intros Hs. rewrite (IH Hs). reflexivity.
Qed.

Lemma before_first_space_app (s rest : string) :
  contains " " s = false ->
  before_first_space (s +:+ " " +:+ rest) = s.
Proof. exact (before_first_space_cut s rest). Qed.

Lemma contains_cut (s tail : string) :
  contains " " (s +:+ String " " tail) = true.
Proof.
  induction s as [|c s IH]; [reflexivity|].
  change (String c s +:+ String " " tail) with (String c (s +:+ String " " tail)).
  cbn [contains]. rewrite IH. apply orb_true_r.
Qed.

Lemma contains_app (s rest : string) :
  contains " " (s +:+ " " +:+ rest) = true.
Proof. exact (contains_cut s rest). Qed.

(** Only the date counts: a key that carries a time of day, or anything
    else, after a space gives the same number of days as the date
    alone. *)
Theorem days_ignore_time_of_day (self : TimeGroupedEvents.t) (date rest : string)
    (now : Z) :
  contains " " date = false ->
  calculate_days_until (VStr (date +:+ " " +:+ rest)) now
  = calculate_days_until (VStr date) now /\
  (date <> "进行中" ->
   get_days_until_start self (VStr (date +:+ " " +:+ rest)) now
   = get_days_until_start self (VStr date) now).
Proof.
  intros Hdate.
  assert (Htry : days_try (VStr (date +:+ " " +:+ rest)) now = days_try (VStr date) now).
  { rewrite !days_try_str, (before_first_space_app date rest Hdate),
      (before_first_space_no_space date Hdate). reflexivity. }
  split.
  - unfold calculate_days_until. rewrite Htry. reflexivity.
  - intros Hne. unfold get_days_until_start. rewrite Htry. unfold eq_str, ongoing_key.
    destruct (String.eqb_spec date "进行中") as [Heq|_]; [contradiction|].
    destruct (String.eqb_spec (date +:+ " " +:+ rest) "进行中") as [Heq|_]; [|reflexivity].
    exfalso. pose proof (contains_app date rest) as Hc. rewrite Heq in Hc. discriminate.
Qed.

End DaysMore.

(** ** Items with missing and with null fields *)

Section Items.
Context `{Builtins}.

(** A price the item leaves out counts as 0, while a price the item
    gives as null is kept as [None]: the item still parses, and asking
    the event for its price display raises. *)
Theorem price_missing_or_null (d : list (string * pyval)) :
  (assoc "min_price" d = None -> assoc "max_price" d = None ->
   exists e, ACGEvent.from_dict (VDict d) = Ok e /\
             ACGEvent.price_range_yuan e = Ok "￥0") /\
  (assoc "min_price" d = Some VNone ->
   exists e, ACGEvent.from_dict (VDict d) = Ok e /\
             ACGEvent.price_range_yuan e
             = Raise (TypeError "unsupported operand type(s) for /: 'NoneType' and 'int'")).
Proof.
  split.
  - intros Hmin Hmax. unfold ACGEvent.from_dict. cbn [get rbind]. rewrite Hmin, Hmax.
    eexists. split; reflexivity.
  - intros Hmin. unfold ACGEvent.from_dict. cbn [get rbind]. rewrite Hmin.
    eexists. split; reflexivity.
Qed.

(** The guest-tagged parser reads the event fields exactly as
    [ACGEvent.from_dict] does, and sets the guest only when the item
    holds a truthy ["guest"]. *)
Theorem from_dict_with_guest_event (data : pyval) (ge : GuestACGEvent.t) :
  GuestACGEvent.from_dict_with_guest data = Ok ge ->
  ACGEvent.from_dict data = Ok (GuestACGEvent.event ge) /\
  (GuestACGEvent.guest ge = None <->
   forall d, data = VDict d ->
     truthy (match assoc "guest" d with Some g => g | None => VNone end) = false).
Proof.
  destruct data as [|b|z|s|l|d]; try discriminate.
  unfold GuestACGEvent.from_dict_with_guest, ACGEvent.from_dict. cbn [get rbind].
  destruct (truthy (match assoc "guest" d with Some x => x | None => VNone end)) eqn:Hg.
  - destruct (Guest.from_dict _) as [g|x]; [|discriminate].
    intros [= <-]. cbn. split; [reflexivity|]. split; [discriminate|].
    intros Hall. specialize (Hall d eq_refl). congruence.
  - intros [= <-]. cbn. split; [reflexivity|]. split; [|reflexivity].
    intros _ d' [= <-]. exact Hg.
Qed.

End Items.

(** ** The base URL *)

Section BaseUrl.

Lemma length_append (s s' : string) :
  String.length (s +:+ s') = (String.length s + String.length s')%nat.
Proof.
  induction s as [|c s IH]; [reflexivity|].
  change (String c s +:+ s') with (String c (s +:+ s')). cbn. rewrite IH. reflexivity.
Qed.

Lemma rstrip_slash_app (s : string) : rstrip "/" (s +:+ "/") = rstrip "/" s.
Proof.
  induction s as [|c s IH]; [reflexivity|].
  change (String c s +:+ "/") with (String c (s +:+ "/")).
  cbn [rstrip]. rewrite IH. reflexivity.
Qed.

Lemma rstrip_cons (c : Ascii.ascii) (s : string) :
  rstrip "/" s <> "" -> rstrip "/" (String c s) = String c (rstrip "/" s).
Proof.
  intros Hne. cbn. destruct (rstrip "/" s); [contradiction|reflexivity].
Qed.

Lemma rstrip_idempotent (s : string) : rstrip "/" (rstrip "/" s) = rstrip "/" s.
Proof.
  induction s as [|c s IH]; [reflexivity|]. cbn [rstrip].
  destruct (rstrip "/" s) as [|c' r] eqn:Hr.
  - destruct (Ascii.eqb c "/") eqn:Hc; [reflexivity|]. cbn. rewrite Hc. reflexivity.
  - rewrite rstrip_cons; [rewrite IH; reflexivity|]. rewrite IH. discriminate.
Qed.

(** Trailing slashes of the configured base URL do not matter: the
    client is the same with or without them, so every request URL has
    exactly the slash of its endpoint. *)
Theorem init_ignores_trailing_slash (base_url : string) (timeout : Z) :
  ACGalaxyAPIClient.init (base_url +:+ "/") timeout = ACGalaxyAPIClient.init base_url timeout /\
  ACGalaxyAPIClient.init
    (ACGalaxyAPIClient.base_url (ACGalaxyAPIClient.init base_url timeout)) timeout
  = ACGalaxyAPIClient.init base_url timeout /\
  forall s, ACGalaxyAPIClient.base_url (ACGalaxyAPIClient.init base_url timeout) <> s +:+ "/".
Proof.
  unfold ACGalaxyAPIClient.init. cbn. split; [|split].
  - rewrite rstrip_slash_app. reflexivity.
  - rewrite rstrip_idempotent. reflexivity.
  - intros s Heq.
    assert (Hid := rstrip_idempotent base_url). rewrite Heq in Hid at 1.
    rewrite rstrip_slash_app in Hid.
    assert (Hlen : (String.length (rstrip "/" s) <= String.length s)%nat).
    { clear. induction s as [|c s IH]; cbn; [lia|].
      destruct (rstrip "/" s); [destruct (Ascii.eqb c "/"); cbn; lia|cbn in *; lia]. }
    rewrite Hid, Heq in Hlen. rewrite length_append in Hlen. cbn in Hlen. lia.
Qed.

End BaseUrl.

(** ** The convenience operations *)

Section Convenience.
Context `{Builtins}.
Import APIResponse ACGalaxyAPIClient.

(** What the two convenience operations ask of the collection endpoint.
    The calendar always asks for [order=time]; the search never sends an
    order; both always send [city_id=0], send the city or the keyword
    only when it is not empty, and send [count] only when it is not 0. *)
Theorem convenience_requests `{T : Transport} (self : ACGalaxyAPIClient.t)
    (city_name keyword : string) (count : Z) (log : list request) (w : @World T) :
  fst (snd (get_city_acg_calendar (H0 := recording T) self city_name count (log, w)))
  = log ++
    [("GET", base_url self +:+ "/list",
      Some ([("city_id", VInt 0)] ++
            (if String.eqb city_name "" then [] else [("city_name", VStr city_name)]) ++
            [("order", VStr "time")] ++
            (if count =? 0 then [] else [("count", VInt count)])),
      timeout self)] /\
  fst (snd (search_acg_events (H0 := recording T) self keyword count (log, w)))
  = log ++
    [("GET", base_url self +:+ "/list",
      Some ([("city_id", VInt 0)] ++
            (if String.eqb keyword "" then [] else [("key", VStr keyword)]) ++
            (if count =? 0 then [] else [("count", VInt count)])),
      timeout self)].
Proof.
  unfold get_city_acg_calendar, search_acg_events. rewrite !get_acg_list_request.
  unfold acg_list_params. cbn [truthy].
  split; do 3 f_equal.
  - destruct (String.eqb city_name ""), (count =? 0); reflexivity.
  - destruct (String.eqb keyword ""), (count =? 0); reflexivity.
Qed.

End Convenience.

(** * Runs of the further properties *)

Lemma make_request_exception_witness :
  ACGalaxyAPIClient._make_request (H := Concrete.builtins) (H0 := Concrete.scripted)
    Concrete.client "get" "/list" None [TimeoutException]
  = (APIResponse.error_response "请求超时" 408, []).
Proof.
  apply (make_request_exception (H := Concrete.builtins) (H0 := Concrete.scripted)
           Concrete.client "get" "/list" None [TimeoutException] [] TimeoutException).
  - left. reflexivity.
  - reflexivity.
  - reflexivity.
Defined.

Lemma make_request_unsupported_witness :
  ACGalaxyAPIClient._make_request (H := Concrete.builtins) (H0 := Concrete.scripted)
    Concrete.client "DELETE" "/list" None [TimeoutException]
  = (APIResponse.error_response "不支持的HTTP方法: DELETE" 500, [TimeoutException]).
Proof.
  apply (make_request_unsupported (H := Concrete.builtins) (H0 := Concrete.scripted));
    [reflexivity|discriminate|discriminate].
Defined.

Lemma operations_pass_failure_on_witness :
  ACGalaxyAPIClient.get_acg_info (H := Concrete.builtins) (H0 := Concrete.scripted)
    Concrete.client "X1" [TimeoutException]
  = (APIResponse.error_response "请求超时" 408, []) /\
  ACGalaxyAPIClient.search_guest_events (H := Concrete.builtins) (H0 := Concrete.scripted)
    Concrete.client "Aoi" [TimeoutException]
  = (APIResponse.error_response "请求超时" 408, []).
Proof.
  destruct (operations_pass_failure_on (H := Concrete.builtins) (H0 := Concrete.scripted)
              Concrete.client [TimeoutException] [] TimeoutException eq_refl)
    as (Hinfo & _ & Hguests & _).
  split.
  - exact (Hinfo "X1" eq_refl).
  - exact (proj2 (Hguests "Aoi" eq_refl)).
Defined.

Lemma test_connection_outcome_witness :
  ACGalaxyAPIClient.test_connection (H := Concrete.builtins) (H0 := Concrete.scripted)
    Concrete.client [Response 404 (Some (VDict [])) ""]
  = (APIResponse.error_response "API连接失败: 资源不存在: {}" 500, []).
Proof.
  exact (proj1 (test_connection_outcome (H := Concrete.builtins) (H0 := Concrete.scripted)
                  Concrete.client [Response 404 (Some (VDict [])) ""] []
                  (Response 404 (Some (VDict [])) "") eq_refl)).
Defined.

Lemma get_acg_list_parsed_witness :
  exists events,
    ACGalaxyAPIClient.get_acg_list (H := Concrete.builtins) (H0 := Concrete.scripted)
      Concrete.client 0 None None None None None
      [Response 200 (Some (VDict list_fields)) ""]
    = (APIResponse.success_response
         (APIResponse.Obj (ACGListResponse.mk (VInt 2) events)) "获取漫展列表成功", []) /\
    length events = 2%nat.
Proof.
  destruct (get_acg_list_parsed (H := Concrete.builtins) (H0 := Concrete.scripted)
              Concrete.client 0 None None None None None
              [Response 200 (Some (VDict list_fields)) ""] [] list_fields ""
              [VDict sample_item; VDict numeric_id_item] eq_refl eq_refl)
    as (events & Hrun & _ & Hlen).
  - repeat constructor; eexists; reflexivity.
  - exists events. split; [exact Hrun|exact Hlen].
Defined.

Lemma get_acg_list_bad_item_witness :
  ACGalaxyAPIClient.get_acg_list (H := Concrete.builtins) (H0 := Concrete.scripted)
    Concrete.client 0 None None None None None
    [Response 200 (Some (VDict spoiled_list_fields)) ""]
  = (APIResponse.error_response
       "获取漫展列表失败: 'str' object has no attribute 'get'" 500, []).
Proof.
  apply (get_acg_list_bad_item (H := Concrete.builtins) (H0 := Concrete.scripted)
           Concrete.client 0 None None None None None
           [Response 200 (Some (VDict spoiled_list_fields)) ""] [] spoiled_list_fields ""
           [VDict sample_item] [VDict numeric_id_item] (VStr "oops")).
  - reflexivity.
  - reflexivity.
  - repeat constructor. eexists. reflexivity.
  - intros [d Hd]. discriminate.
Defined.

Lemma get_acg_list_no_data_witness :
  ACGalaxyAPIClient.get_acg_list (H := Concrete.builtins) (H0 := Concrete.scripted)
    Concrete.client 0 None None None None None
    [Response 200 (Some (VDict [("code", VInt 0); ("data", VNone)])) ""]
  = (APIResponse.error_response
       "获取漫展列表失败: 'NoneType' object is not iterable" 500, []) /\
  ACGalaxyAPIClient.get_acg_list (H := Concrete.builtins) (H0 := Concrete.scripted)
    Concrete.client 0 None None None None None
    [Response 200 (Some (VDict [("code", VInt 0)])) ""]
  = (APIResponse.success_response
       (APIResponse.Obj (ACGListResponse.mk (VInt 0) [])) "获取漫展列表成功", []).
Proof.
  split.
  - apply (get_acg_list_no_data (H := Concrete.builtins) (H0 := Concrete.scripted)
             Concrete.client 0 None None None None None
             [Response 200 (Some (VDict [("code", VInt 0); ("data", VNone)])) ""] []
             [("code", VInt 0); ("data", VNone)] "");
      [reflexivity|discriminate|reflexivity].
  - apply (get_acg_list_no_data (H := Concrete.builtins) (H0 := Concrete.scripted)
             Concrete.client 0 None None None None None
             [Response 200 (Some (VDict [("code", VInt 0)])) ""] []
             [("code", VInt 0)] "");
      [reflexivity|discriminate|reflexivity].
Defined.

Lemma get_acg_info_event_witness :
  APIResponse.data
    (fst (ACGalaxyAPIClient.get_acg_info (H := Concrete.builtins) (H0 := Concrete.scripted)
            Concrete.client "X1"
            [Response 200 (Some (VDict [("data", VDict sample_item)])) ""]))
  = APIResponse.Obj sample_event.
Proof.
  apply (get_acg_info_event (H := Concrete.builtins) (H0 := Concrete.scripted)
           Concrete.client "X1"
           [Response 200 (Some (VDict [("data", VDict sample_item)])) ""] []
           (Response 200 (Some (VDict [("data", VDict sample_item)])) "") sample_event
           eq_refl).
  exists [("data", VDict sample_item)], "", sample_item.
  repeat split. discriminate.
Defined.

Lemma search_guest_events_success_witness :
  exists guests events,
    APIResponse.data
      (fst (ACGalaxyAPIClient.search_guest_events
              (H := Concrete.builtins) (H0 := Concrete.scripted)
              Concrete.client "n" two_guests_world))
    = APIResponse.Obj
        (ACGalaxyAPIClient.ResultData guests events (Z.of_nat (length events))) /\
    guests <> [] /\
    Forall (fun ed => In (ACGalaxyAPIClient.guest ed) guests) events.
Proof.
  apply (search_guest_events_success (H := Concrete.builtins) (H0 := Concrete.scripted)
           Concrete.client "n" two_guests_world).
  vm_compute. reflexivity.
Defined.

Lemma search_guest_events_requests_witness :
  fst (snd (ACGalaxyAPIClient.search_guest_events
              (H := Concrete.builtins) (H0 := recording Concrete.scripted)
              Concrete.client "n" ([], two_guests_world)))
  = [ ("GET", "https://acg.s1f.ren/guests", Some [("guest_name", VStr "n")], 30);
      ("GET", "https://acg.s1f.ren/guest/1", None, 30);
      ("GET", "https://acg.s1f.ren/guest/2", None, 30) ].
Proof.
  etransitivity.
  apply (search_guest_events_requests (H := Concrete.builtins) (T := Concrete.scripted)
             Concrete.client "n" [] two_guests_world
             (APIResponse.success_response
                (APIResponse.Obj (GuestListResponse.mk [guest_aoi; guest_rin]))
                "获取嘉宾列表成功")
             ([("GET", "https://acg.s1f.ren/guests", Some [("guest_name", VStr "n")], 30)],
              [ Response 500 None "Internal Server Error";
                Response 200 (Some (guest_events_body 2 "Rin" [VDict sample_item])) "" ])
             (GuestListResponse.mk [guest_aoi; guest_rin])).
  - vm_compute. reflexivity.
  - reflexivity.
  - reflexivity.
  - vm_compute. split; [discriminate|]. split; [|exact I].
    intros _. eexists. reflexivity.
  - reflexivity.
Defined.

Lemma from_events_complete_witness :
  exists tg,
    TimeGroupedEvents.from_events_clock
      (fun i => inject_Z (1903900000 + 1000000 * Z.of_nat i)) calendar_events = Ok tg /\
    TimeGroupedEvents.get_total_count tg = 4.
Proof.
  eexists. split; [vm_compute; reflexivity|].
  refine (proj2 (proj2 (from_events_complete
                          (fun i => inject_Z (1903900000 + 1000000 * Z.of_nat i))
                          calendar_events _ _))).
  vm_compute. reflexivity.
Defined.

Lemma from_events_needs_numbers_witness :
  TimeGroupedEvents.from_events_clock
    (fun i => inject_Z (1903900000 + 1000000 * Z.of_nat i))
    (calendar_events ++ untimed_event :: [sample_event])
  = Raise (TypeError "'<=' not supported between instances of 'NoneType' and 'float'").
Proof.
  refine (proj2 (from_events_needs_numbers
                   (fun i => inject_Z (1903900000 + 1000000 * Z.of_nat i))
                   calendar_events [sample_event] untimed_event _) _).
  - reflexivity.
  - exact calendar_events_typed.
Defined.

Lemma from_events_key_order_witness :
  exists tg,
    TimeGroupedEvents.from_events (inject_Z 1903900000) calendar_events = Ok tg /\
    map fst (TimeGroupedEvents.time_groups tg) = [VStr "2030-06-01"; VStr "进行中"].
Proof.
  eexists. split; [vm_compute; reflexivity|].
  etransitivity.
  - apply (from_events_key_order (inject_Z 1903900000) calendar_events _
             calendar_events_typed).
    vm_compute. reflexivity.
  - vm_compute. reflexivity.
Defined.

Lemma event_phase_exclusive_witness :
  exists upcoming ongoing finished,
    ACGEvent.is_upcoming sample_event (inject_Z 1903900000) = Ok upcoming /\
    ACGEvent.is_ongoing sample_event (inject_Z 1903900000) = Ok ongoing /\
    ACGEvent.is_finished sample_event (inject_Z 1903900000) = Ok finished /\
    ((upcoming = true /\ ongoing = false /\ finished = false) \/
     (upcoming = false /\ ongoing = true /\ finished = false) \/
     (upcoming = false /\ ongoing = false /\ finished = true)).
Proof.
  apply (event_phase_exclusive sample_event 1903824000 1904083199 (inject_Z 1903900000));
    [reflexivity|reflexivity|lia].
Defined.

Lemma get_cached_data_sound_witness :
  ACGalaxyPlugin.cache
    (snd (ACGalaxyPlugin.get_cached_data calendar_plugin "calendar_Shanghai" (inject_Z 2800)))
    !! "calendar_Shanghai" = None.
Proof.
  pose proof (get_cached_data_sound calendar_plugin
                (ACGalaxyPlugin.mk ∅ (inject_Z 1800)) "calendar_Shanghai" (inject_Z 2800) None)
    as Hsound.
  destruct Hsound as (_ & _ & Hgone); [vm_compute; reflexivity|].
  vm_compute. reflexivity.
Defined.

Lemma calendar_response_hit_witness :
  ACGalaxyPlugin.calendar_response (H := Concrete.builtins) (H0 := Concrete.scripted)
    calendar_plugin sample_config Concrete.client "Shanghai"
    (inject_Z 2000) (inject_Z 2001) [TimeoutException]
  = ((calendar_reply, calendar_plugin), [TimeoutException]).
Proof.
  apply (calendar_response_hit (H := Concrete.builtins) (H0 := Concrete.scripted)
           calendar_plugin sample_config Concrete.client "Shanghai"
           (inject_Z 2000) (inject_Z 2001) (inject_Z 1000) calendar_reply [TimeoutException]).
  - discriminate.
  - reflexivity.
  - reflexivity.
Defined.

Lemma calendar_response_miss_witness :
  ACGalaxyPlugin.calendar_response (H := Concrete.builtins) (H0 := Concrete.scripted)
    fresh_plugin sample_config Concrete.client "Shanghai"
    (inject_Z 2000) (inject_Z 2001) [TimeoutException; TimeoutException]
  = ((APIResponse.error_response "请求超时" 408, fresh_plugin), [TimeoutException]).
Proof.
  destruct (calendar_response_miss (H := Concrete.builtins) (H0 := Concrete.scripted)
              fresh_plugin fresh_plugin sample_config Concrete.client "Shanghai"
              (inject_Z 2000) (inject_Z 2001) (inject_Z 2002) (inject_Z 2003)
              (APIResponse.error_response "请求超时" 408)
              [TimeoutException; TimeoutException] [TimeoutException])
    as (_ & _ & _).
  - discriminate.
  - reflexivity.
  - vm_compute. reflexivity.
  - vm_compute. reflexivity.
Defined.

Lemma get_days_until_start_antitone_witness :
  TimeGroupedEvents.get_days_until_start (H := Concrete.datetime) no_groups
    (VStr "2030-05-03") (noon_2030_05_01 + 86400000000)
  <= TimeGroupedEvents.get_days_until_start (H := Concrete.datetime) no_groups
       (VStr "2030-05-03") noon_2030_05_01.
Proof.
  apply (get_days_until_start_antitone (H := Concrete.datetime)). lia.
Defined.

Lemma days_ignore_time_of_day_witness :
  calculate_days_until (H := Concrete.datetime) (VStr "2030-05-03 10:00:00") noon_2030_05_01
  = calculate_days_until (H := Concrete.datetime) (VStr "2030-05-03") noon_2030_05_01.
Proof.
  exact (proj1 (days_ignore_time_of_day (H := Concrete.datetime) no_groups
                  "2030-05-03" "10:00:00" noon_2030_05_01 eq_refl)).
Defined.

Lemma from_dict_with_guest_event_witness :
  ACGEvent.from_dict (H := Concrete.builtins) (VDict sample_item)
  = Ok sample_event.
Proof.
  exact (proj1 (from_dict_with_guest_event (H := Concrete.builtins) (VDict sample_item)
                  (GuestACGEvent.mk sample_event None) eq_refl)).
Defined.
